(** * flint.h: the trace encoder and its buffered-write pipeline

    A shallow embedding of [tools/flint.h]: the write buffer
    ([Flint__BufferFlush], [Flint__BufferWrite], [FlintFlush]), the context
    life cycle ([Flint__Init], [FlintQuit]) and the event entry points
    ([FlintTraceBeginLenTidPid], [FlintTraceEndTidPid] and their wrappers),
    over a small model of the C stream functions they call.

    Conventions.
    - A C integer of width w is a [Z]; casts and wrap-around are written out.
    - A [double] is carried as its 64-bit object representation (a [Z]); the
      two operations of the source that look inside a double, the product
      [when * timestamp_unit] and the [%f] conversion of [fprintf], are
      parameters of the development.
    - A pointer that may be [NULL] is an [option]; the pointed-to object is
      passed in and handed back (explicit state passing).
    - Integers are stored in the byte order of the host, a parameter. *)

From Stdlib Require Import ZArith Lia.
From Stdlib Require Import Strings.Byte.
From stdpp Require Import base option list strings gmap.

Local Open Scope Z_scope.

Abbreviation byte := Byte.byte.

(** ** Bytes and fixed-width integers *)

Definition Z_of_byte (b : byte) : Z := Z.of_N (Byte.to_N b).

Definition byte_of_Z (z : Z) : byte :=
  match Byte.of_N (Z.to_N (z mod 256)) with
  | Some b => b
  | None => Byte.x00
  end.

(** The [n] low-order bytes of [x], least significant first. *)
Fixpoint le_bytes (n : nat) (x : Z) : list byte :=
  match n with
  | O => []
  | S n' => byte_of_Z x :: le_bytes n' (x / 256)
  end.

Fixpoint le_value (bs : list byte) : Z :=
  match bs with
  | [] => 0
  | b :: r => Z_of_byte b + 256 * le_value r
  end.

(** Object representation of an [n]-byte integer on the host. *)
Definition host_bytes (big_endian : bool) (n : nat) (x : Z) : list byte :=
  if big_endian then rev (le_bytes n x) else le_bytes n x.

Definition host_value (big_endian : bool) (bs : list byte) : Z :=
  le_value (if big_endian then rev bs else bs).

Definition u32_mod : Z := 2 ^ 32.
Definition u64_mod : Z := 2 ^ 64.

(** The cast [(signed long)] of an [unsigned long]. *)
Definition to_signed_long (x : Z) : Z :=
  if x mod u64_mod <? 2 ^ 63 then x mod u64_mod else x mod u64_mod - u64_mod.

(** [size_t] and [uint32_t] arithmetic of the write buffer ([size_t] and
    [long] have 64 bits, as on the LP64 hosts the tool is built for). *)
Definition size_add (a b : Z) : Z := (a + b) mod u64_mod.
Definition u32_add (a b : Z) : Z := (a + b) mod u32_mod.

(** ** The C stream, as far as flint.h uses it

    A stream opened with ["wb"] holds the bytes of its file and a position.
    The operations that can fail in the environment ([fwrite], [fprintf],
    [fflush]) ask the stream's [f_script] for their outcome: its next entry
    says whether the request succeeds; an exhausted script means success.  A
    failed request transfers nothing and sets the error indicator. *)

Record FILE := mkFILE {
  f_path : string;
  f_data : list byte;
  f_pos : nat;
  f_eof : bool;
  f_err : bool;
  f_script : list bool
}.

Definition next_io (f : FILE) : bool * FILE :=
  match f_script f with
  | [] => (true, f)
  | b :: s => (b, mkFILE (f_path f) (f_data f) (f_pos f) (f_eof f) (f_err f) s)
  end.

Definition set_error (f : FILE) : FILE :=
  mkFILE (f_path f) (f_data f) (f_pos f) (f_eof f) true (f_script f).

(** Store [bs] at the position of the stream and advance it. *)
Definition stream_put (f : FILE) (bs : list byte) : FILE :=
  mkFILE (f_path f)
         (take (f_pos f) (f_data f) ++ bs ++ drop (f_pos f + length bs) (f_data f))
         (f_pos f + length bs) (f_eof f) (f_err f) (f_script f).

(** [fwrite(p, n, 1, f)]: the number of items written, 1 or 0.  A request of
    size zero returns 0 and leaves the stream as it is. *)
Definition fwrite (p : list byte) (f : FILE) : Z * FILE :=
  match p with
  | [] => (0, f)
  | _ =>
    let '(ok, f1) := next_io f in
    if ok then (1, stream_put f1 p) else (0, set_error f1)
  end.

(** [fprintf(f, ...)] with the formatted text [text]: the number of
    characters written, or a negative value. *)
Definition fprintf (f : FILE) (text : list byte) : Z * FILE :=
  let '(ok, f1) := next_io f in
  if ok then (Z.of_nat (length text), stream_put f1 text) else (-1, set_error f1).

(** [fflush(f)]: 0 on success, [EOF] otherwise. *)
Definition fflush (f : FILE) : Z * FILE :=
  let '(ok, f1) := next_io f in
  if ok then (0, f1) else (-1, set_error f1).

(** [fseek(f, off, SEEK_CUR)]: fails when the new position would be
    negative. *)
Definition fseek_cur (f : FILE) (off : Z) : Z * FILE :=
  let p := Z.of_nat (f_pos f) + off in
  if p <? 0 then (-1, f)
  else (0, mkFILE (f_path f) (f_data f) (Z.to_nat p) false (f_err f) (f_script f)).

Definition feof (f : FILE) : bool := f_eof f.
Definition ferror (f : FILE) : bool := f_err f.

(** The files of the host and the outcomes of the coming [fopen] requests:
    [None] refuses the request, [Some s] grants a stream whose script is [s];
    an exhausted list grants a stream that never fails. *)
Record World := mkWorld {
  fs : gmap string (list byte);
  fopen_script : list (option (list bool))
}.

(** [fopen(filename, "wb")]: the file is created or truncated. *)
Definition fopen (filename : string) (w : World) : option FILE * World :=
  let fresh s := mkFILE filename [] 0%nat false false s in
  match fopen_script w with
  | [] => (Some (fresh []), mkWorld (<[filename := []]> (fs w)) [])
  | None :: rest => (None, mkWorld (fs w) rest)
  | Some s :: rest => (Some (fresh s), mkWorld (<[filename := []]> (fs w)) rest)
  end.

(** [fclose(f)]: the bytes of the stream are the file from now on. *)
Definition fclose (f : FILE) (w : World) : World :=
  mkWorld (<[f_path f := f_data f]> (fs w)) (fopen_script w).

(** [strlen]: the index of the first NUL of the object; reading past an
    object that has none is undefined. *)
Fixpoint strlen (s : list byte) : option Z :=
  match s with
  | [] => None
  | b :: r => if Z_of_byte b =? 0 then Some 0 else Z.succ <$> strlen r
  end.

(** ** Data model of flint.h *)

(** [FlintEventType]. *)
Definition FlintEventType_Invalid : Z := 0.
Definition FlintEventType_Completion : Z := 1.
Definition FlintEventType_Begin : Z := 2.
Definition FlintEventType_End : Z := 3.
Definition FlintEventType_Instant : Z := 4.
Definition FlintEventType_StreamOver : Z := 5.

(** [FlintContext]: [file] is the stream the context owns, [None] for the
    null handle. *)
Record FlintContext := mkContext {
  file : option FILE;
  timestamp_unit : Z;
  is_json : Z
}.

(** [FlintWriteBuffer]: the fields [length], [head] and [data], prefixed
    because lists already have a [length] and a [head]. *)
Record FlintWriteBuffer := mkWB {
  wb_length : Z;
  wb_head : Z;
  wb_data : list byte
}.

(** [FlintBeginEventMax], packed: the fields [type], [pid], [tid], [when]
    and [name.length] of [FlintBeginEvent], with the one character of
    [FlintString.bytes] and the 254 of [name_bytes] behind it as one run of
    255 characters. *)
Record FlintBeginEventMax := mkBeginMax {
  ev_type : Z;
  ev_pid : Z;
  ev_tid : Z;
  ev_when : Z;
  ev_name_length : Z;
  ev_name_bytes : list byte
}.

(** [FlintEndEvent], packed: the fields [type], [pid], [tid] and [when]. *)
Record FlintEndEvent := mkEnd {
  ee_type : Z;
  ee_pid : Z;
  ee_tid : Z;
  ee_when : Z
}.

Definition sizeof_FlintHeader : Z := 8 + 8 + 8 + 1.
Definition sizeof_FlintBeginEvent : Z := 1 + 4 + 4 + 8 + (1 + 1).
Definition sizeof_FlintEndEvent : Z := 1 + 4 + 4 + 8.

(** [FlintWriteBuffer wb_ = {0}], the local buffer used when the caller
    passes none. *)
Definition wb_zero : FlintWriteBuffer := mkWB 0 0 [].

Definition wb_or_zero (wb : option FlintWriteBuffer) : FlintWriteBuffer :=
  match wb with Some b => b | None => wb_zero end.

(** What the caller gets back through its buffer pointer: the local buffer
    of a call made without one is dropped. *)
Definition wb_back (wb : option FlintWriteBuffer) (b : FlintWriteBuffer)
  : option FlintWriteBuffer :=
  match wb with Some _ => Some b | None => None end.

Definition set_head (wb : FlintWriteBuffer) (h : Z) : FlintWriteBuffer :=
  mkWB (wb_length wb) h (wb_data wb).

Definition set_file (ctx : FlintContext) (f : FILE) : FlintContext :=
  mkContext (Some f) (timestamp_unit ctx) (is_json ctx).

(** The bytes a buffer holds: the first [head] bytes of its storage. *)
Definition held (wb : FlintWriteBuffer) : list byte :=
  take (Z.to_nat (wb_head wb)) (wb_data wb).

(** [memcpy((char * )wb->data + wb->head, p, n)]. *)
Definition memcpy_at (dst : list byte) (at_ : nat) (p : list byte) : list byte :=
  take at_ dst ++ p ++ drop (at_ + length p) dst.

(** ** The write buffer *)

Definition Flint__BufferFlush (wb : FlintWriteBuffer) (f : FILE)
  : bool * FlintWriteBuffer * FILE :=
  if wb_head wb =? 0 then (true, wb, f)
  else
    let '(r, f1) := fwrite (held wb) f in
    if negb (r =? 1) then (false, wb, f1)
    else (true, set_head wb 0, f1).

Definition Flint__BufferWrite (wb : FlintWriteBuffer) (f : FILE) (p : list byte)
  : bool * FlintWriteBuffer * FILE :=
  let n := Z.of_nat (length p) in
  let '(flushed, wb1, f1) :=
    if size_add (wb_head wb) n >? wb_length wb
    then Flint__BufferFlush wb f
    else (true, wb, f) in
  if negb flushed then (false, wb1, f1)
  else if n >? wb_length wb1 then
    let '(r, f2) := fwrite p f1 in (negb (r =? 0), wb1, f2)
  else
    (true,
     mkWB (wb_length wb1) (u32_add (wb_head wb1) n)
          (memcpy_at (wb_data wb1) (Z.to_nat (wb_head wb1)) p),
     f1).

Definition FlintFlush (ctx : option FlintContext) (wb : option FlintWriteBuffer)
  : bool * option FlintContext * option FlintWriteBuffer :=
  let result := true in
  let b := wb_or_zero wb in
  match ctx with
  | Some c =>
    match file c with
    | Some f =>
      let '(ok, b1, f1) := Flint__BufferFlush b f in
      let result := if negb ok then false else result in
      let '(r, f2) := fflush f1 in
      let result := if r =? 0 then false else result in
      (result, Some (set_file c f2), wb_back wb b1)
    | None => (result && false, ctx, wb_back wb (set_head b 0))
    end
  | None => (result && true, ctx, wb_back wb (set_head b 0))
  end.

Definition FlintBufferInit (wb : option FlintWriteBuffer) := FlintFlush None wb.
Definition FlintBufferQuit (ctx : option FlintContext) (wb : option FlintWriteBuffer) :=
  FlintFlush ctx wb.

(** ** Formatted text *)

Definition lit (s : string) : list byte := String.list_byte_of_string s.

(** The double quote of the C format strings. *)
Definition dq : byte := Byte.x22.
Definition nl : byte := Byte.x0a.

(** [%u]: the decimal digits of an [unsigned int]. *)
Fixpoint dec_digits (fuel : nat) (n : Z) (acc : list byte) : list byte :=
  match fuel with
  | O => acc
  | S k =>
    let acc' := byte_of_Z (48 + n mod 10) :: acc in
    if n / 10 =? 0 then acc' else dec_digits k (n / 10) acc'
  end.

Definition printf_u (n : Z) : list byte := dec_digits 10 (n mod u32_mod) [].

(** [%.*s]: the characters of [s] up to the first NUL, at most [prec]. *)
Fixpoint printf_prec_s (prec : nat) (s : list byte) : list byte :=
  match prec, s with
  | S k, b :: r => if Z_of_byte b =? 0 then [] else b :: printf_prec_s k r
  | _, _ => []
  end.

(** The text of ["{\"traceEvents\":[\n"]. *)
Definition json_prologue : list byte :=
  lit "{" ++ [dq] ++ lit "traceEvents" ++ [dq] ++ lit ":[" ++ [nl].

(** The text of ["\n]}\n"]. *)
Definition json_epilogue : list byte := [nl] ++ lit "]}" ++ [nl].

(** ** Context life cycle *)

Definition ctx_zero : FlintContext := mkContext None 0 0.

(** [FlintQuit] on a context that exists. *)
Definition FlintQuit_at (c : FlintContext) (w : World) : FlintContext * World :=
  let w1 :=
    match file c with
    | Some f =>
      let f2 :=
        if negb (is_json c =? 0) then
          let '(_, f1) := fseek_cur f (-2) in
          let '(_, f2) := fprintf f1 json_epilogue in
          f2
        else f in
      fclose f2 w
    | None => w
    end in
  (ctx_zero, w1).

Definition FlintQuit (ctx : option FlintContext) (w : World)
  : option FlintContext * World :=
  match ctx with
  | None => (None, w)
  | Some c => let '(c', w') := FlintQuit_at c w in (Some c', w')
  end.

(** [FlintHeader], packed. *)
Record FlintHeader := mkHeader {
  magic_header : Z;
  version : Z;
  h_timestamp_unit : Z;
  reserved : byte
}.

Definition flint_magic : Z := 0x0BADF00D.

Section Flint.

(** Byte order of the host. *)
Variable big_endian : bool.

(** The product of two doubles and the [%f] conversion, on object
    representations. *)
Variable fmul : Z -> Z -> Z.
Variable printf_f : Z -> list byte.

Definition header_bytes (h : FlintHeader) : list byte :=
  host_bytes big_endian 8 (magic_header h) ++
  host_bytes big_endian 8 (version h) ++
  host_bytes big_endian 8 (h_timestamp_unit h) ++
  [reserved h].

(** [Flint__Init].  The local [header] is not initialised as a whole: its
    [reserved] byte keeps what the stack held, [reserved0]. *)
Definition Flint__Init (reserved0 : byte) (filename : option string)
    (timestamp_unit : Z) (is_json_ : bool) (w : World) : FlintContext * World :=
  let ctx := ctx_zero in
  match filename with
  | None => (ctx, w)
  | Some fname =>
    let '(fo, w1) := fopen fname w in
    let ctx := mkContext fo timestamp_unit (Z.b2z is_json_) in
    match fo with
    | None => FlintQuit_at ctx w1
    | Some f =>
      if negb (is_json ctx =? 0) then
        let '(r, f1) := fprintf f json_prologue in
        if r <=? 0 then FlintQuit_at (set_file ctx f1) w1
        else
          let '(r2, f2) := fflush f1 in
          if negb (r2 =? 0) then FlintQuit_at (set_file ctx f2) w1
          else (set_file ctx f2, w1)
      else
        let header := mkHeader flint_magic 0 timestamp_unit reserved0 in
        let '(r, f1) :=
          fwrite (take (Z.to_nat sizeof_FlintHeader) (header_bytes header)) f in
        if negb (r =? 1) then FlintQuit_at (set_file ctx f1) w1
        else (set_file ctx f1, w1)
    end
  end.

Definition FlintInitJson (reserved0 : byte) filename timestamp_unit w :=
  Flint__Init reserved0 filename timestamp_unit true w.
Definition FlintInit (reserved0 : byte) filename timestamp_unit w :=
  Flint__Init reserved0 filename timestamp_unit false w.

(** ** Event API *)

(** Object representation of the local [ev] of a Begin call. *)
Definition begin_bytes (ev : FlintBeginEventMax) : list byte :=
  [byte_of_Z (ev_type ev)] ++
  host_bytes big_endian 4 (ev_pid ev) ++
  host_bytes big_endian 4 (ev_tid ev) ++
  host_bytes big_endian 8 (ev_when ev) ++
  [byte_of_Z (ev_name_length ev)] ++
  ev_name_bytes ev.

Definition end_bytes (ev : FlintEndEvent) : list byte :=
  [byte_of_Z (ee_type ev)] ++
  host_bytes big_endian 4 (ee_pid ev) ++
  host_bytes big_endian 4 (ee_tid ev) ++
  host_bytes big_endian 8 (ee_when ev).

(** The text of the Begin format string with its arguments filled in. *)
Definition json_begin_text (name : list byte) (pid tid ts : Z) : list byte :=
  lit "{" ++ [dq] ++ lit "name" ++ [dq] ++ lit ":" ++ [dq] ++ name ++ [dq] ++
  lit "," ++ [dq] ++ lit "ph" ++ [dq] ++ lit ":" ++ [dq] ++ lit "B" ++ [dq] ++
  lit "," ++ [dq] ++ lit "pid" ++ [dq] ++ lit ":" ++ printf_u pid ++
  lit "," ++ [dq] ++ lit "tid" ++ [dq] ++ lit ":" ++ printf_u tid ++
  lit "," ++ [dq] ++ lit "ts" ++ [dq] ++ lit ":" ++ printf_f ts ++
  lit "}," ++ [nl].

Definition json_end_text (pid tid ts : Z) : list byte :=
  lit "{" ++ [dq] ++ lit "ph" ++ [dq] ++ lit ":" ++ [dq] ++ lit "E" ++ [dq] ++
  lit "," ++ [dq] ++ lit "pid" ++ [dq] ++ lit ":" ++ printf_u pid ++
  lit "," ++ [dq] ++ lit "tid" ++ [dq] ++ lit ":" ++ printf_u tid ++
  lit "," ++ [dq] ++ lit "ts" ++ [dq] ++ lit ":" ++ printf_f ts ++
  lit "}," ++ [nl].

(** What a call hands back: its return value and the objects behind its
    two pointers. *)
Definition Ret : Type := bool * option FlintContext * option FlintWriteBuffer.

(** [FlintTraceBeginLenTidPid].  [ev0] is what the stack holds where the
    local [ev] is placed; [name] is the object the name pointer refers to.
    The result is [None] when the call reads past the end of [name]
    (undefined in C). *)
Definition FlintTraceBeginLenTidPid (ev0 : FlintBeginEventMax)
    (ctx : option FlintContext) (wb : option FlintWriteBuffer)
    (when : Z) (name : option (list byte)) (name_len : Z) (tid pid : Z)
  : option Ret :=
  let ev := ev0 in
  let b := wb_or_zero wb in
  match ctx with
  | None => Some (false, ctx, wb)
  | Some c =>
    match name with
    | None => Some (false, ctx, wb)
    | Some nm =>
      match file c with
      | None => Some (false, ctx, wb)
      | Some f =>
        if feof f then Some (false, ctx, wb)
        else if ferror f then Some (false, ctx, wb)
        else if name_len <=? 0 then Some (false, ctx, wb)
        else
          let name_len := if name_len >? 255 then 255 else name_len in
          let ev := mkBeginMax FlintEventType_Begin pid tid when
                               (name_len mod 256) (ev_name_bytes ev) in
          if negb (is_json c =? 0) then
            let '(r, f1) :=
              fprintf f
                (json_begin_text
                   (printf_prec_s (Z.to_nat (ev_name_length ev)) (ev_name_bytes ev))
                   (ev_pid ev) (ev_tid ev)
                   (fmul (ev_when ev) (timestamp_unit c))) in
            if r <=? 0 then Some (false, Some (set_file c f1), wb)
            else Some (true, Some (set_file c f1), wb)
          else
            let k := Z.to_nat (name_len mod 256) in
            if (length nm <? k)%nat then None
            else
              let ev := mkBeginMax (ev_type ev) (ev_pid ev) (ev_tid ev) (ev_when ev)
                                   (ev_name_length ev)
                                   (memcpy_at (ev_name_bytes ev) 0 (take k nm)) in
              let n := Z.to_nat (sizeof_FlintBeginEvent + name_len mod 256 - 1) in
              let '(ok, b1, f1) := Flint__BufferWrite b f (take n (begin_bytes ev)) in
              if negb ok then Some (false, Some (set_file c f1), wb_back wb b1)
              else Some (true, Some (set_file c f1), wb_back wb b1)
      end
    end
  end.

(** [FlintTraceBeginTidPid]: [name] is a C string. *)
Definition FlintTraceBeginTidPid (ev0 : FlintBeginEventMax)
    (ctx : option FlintContext) (wb : option FlintWriteBuffer)
    (when : Z) (name : option (list byte)) (tid pid : Z) : option Ret :=
  match name with
  | None => Some (false, ctx, wb)
  | Some nm =>
    match strlen nm with
    | None => None
    | Some name_len =>
      if name_len =? 0 then Some (false, ctx, wb)
      else FlintTraceBeginLenTidPid ev0 ctx wb when name (to_signed_long name_len) tid pid
    end
  end.

Definition FlintTraceBeginLenTid ev0 ctx wb when name name_len tid :=
  FlintTraceBeginLenTidPid ev0 ctx wb when name name_len tid 0.
Definition FlintTraceBeginLen ev0 ctx wb when name name_len :=
  FlintTraceBeginLenTidPid ev0 ctx wb when name name_len 0 0.
Definition FlintTraceBeginTid ev0 ctx wb when name tid :=
  FlintTraceBeginTidPid ev0 ctx wb when name tid 0.
Definition FlintTraceBegin ev0 ctx wb when name :=
  FlintTraceBeginTidPid ev0 ctx wb when name 0 0.

Definition FlintTraceEndTidPid (ctx : option FlintContext)
    (wb : option FlintWriteBuffer) (when : Z) (tid pid : Z) : Ret :=
  let b := wb_or_zero wb in
  match ctx with
  | None => (false, ctx, wb)
  | Some c =>
    match file c with
    | None => (false, ctx, wb)
    | Some f =>
      if feof f then (false, ctx, wb)
      else if ferror f then (false, ctx, wb)
      else
        let ev := mkEnd FlintEventType_End pid tid when in
        if negb (is_json c =? 0) then
          let '(r, f1) :=
            fprintf f (json_end_text (ee_pid ev) (ee_tid ev)
                                     (fmul (ee_when ev) (timestamp_unit c))) in
          if r <=? 0 then (false, Some (set_file c f1), wb)
          else (true, Some (set_file c f1), wb)
        else
          let '(ok, b1, f1) :=
            Flint__BufferWrite b f
              (take (Z.to_nat sizeof_FlintEndEvent) (end_bytes ev)) in
          if negb ok then (false, Some (set_file c f1), wb_back wb b1)
          else (true, Some (set_file c f1), wb_back wb b1)
    end
  end.

Definition FlintTraceEndTid ctx wb when tid := FlintTraceEndTidPid ctx wb when tid 0.
Definition FlintTraceEnd ctx wb when := FlintTraceEndTidPid ctx wb when 0 0.

(** ** Vocabulary of the properties *)

(** The stream is positioned at the end of its bytes, as every stream is
    between [Flint__Init] and [FlintQuit]. *)
Definition at_end (f : FILE) : Prop := f_pos f = length (f_data f).

(** Every request the stream still has scripted succeeds. *)
Definition sink_ok (f : FILE) : Prop := Forall (fun b => b = true) (f_script f).

(** A buffer as its creator must set it up: [head] within [length], and
    [data] pointing to [length] bytes. *)
Definition wb_ok (wb : FlintWriteBuffer) : Prop :=
  0 <= wb_head wb <= wb_length wb /\ wb_length wb < u32_mod /\
  Z.of_nat (length (wb_data wb)) = wb_length wb.

(** A payload is an object in memory: its size stays below [2 ^ 63]. *)
Definition object_size (p : list byte) : Prop := Z.of_nat (length p) < 2 ^ 63.

(** A run of [Flint__BufferWrite] calls on one buffer and one stream, with
    the value each call returned. *)
Fixpoint buffer_writes (wb : FlintWriteBuffer) (f : FILE) (ps : list (list byte))
  : list bool * FlintWriteBuffer * FILE :=
  match ps with
  | [] => ([], wb, f)
  | p :: r =>
    let '(ok, wb1, f1) := Flint__BufferWrite wb f p in
    let '(oks, wb2, f2) := buffer_writes wb1 f1 r in
    (ok :: oks, wb2, f2)
  end.

(** A recorded event as the trace format describes it: type tag, pid, tid,
    timestamp and name (empty for End). *)
Record TraceEvent := mkEvent {
  e_tag : Z;
  e_pid : Z;
  e_tid : Z;
  e_ts : Z;
  e_name : list byte
}.

(** The bytes of one record: tag(1), pid(4), tid(4), timestamp(8), and for
    Begin the length byte and the name. *)
Definition record_layout (e : TraceEvent) : list byte :=
  [byte_of_Z (e_tag e)] ++
  host_bytes big_endian 4 (e_pid e) ++
  host_bytes big_endian 4 (e_tid e) ++
  host_bytes big_endian 8 (e_ts e) ++
  (if e_tag e =? FlintEventType_Begin
   then [byte_of_Z (Z.of_nat (length (e_name e)))] ++ e_name e
   else []).

(** The reading side of the binary format.  flint.h only writes; the reader
    below follows the record layout of the format description (section 6 of
    the specification): it is what the encoder's output is decoded with. *)
Definition decode_record (bs : list byte) : option (TraceEvent * list byte) :=
  match bs with
  | [] => None
  | t :: r =>
    if (length r <? 16)%nat then None
    else
      let tag := Z_of_byte t in
      let pid := host_value big_endian (take 4 r) in
      let tid := host_value big_endian (take 4 (drop 4 r)) in
      let ts := host_value big_endian (take 8 (drop 8 r)) in
      let rest := drop 16 r in
      if tag =? FlintEventType_Begin then
        match rest with
        | [] => None
        | l :: r2 =>
          let k := Z.to_nat (Z_of_byte l) in
          if (length r2 <? k)%nat then None
          else Some (mkEvent tag pid tid ts (take k r2), drop k r2)
        end
      else if tag =? FlintEventType_End then Some (mkEvent tag pid tid ts [], rest)
      else None
  end.

Fixpoint decode_fuel (fuel : nat) (bs : list byte) : option (list TraceEvent) :=
  match bs with
  | [] => Some []
  | _ =>
    match fuel with
    | O => None
    | S fuel' =>
      match decode_record bs with
      | None => None
      | Some (e, rest) => cons e <$> decode_fuel fuel' rest
      end
    end
  end.

Definition decode_records (bs : list byte) : option (list TraceEvent) :=
  decode_fuel (length bs) bs.

(** A call of the event API, with what the stack holds under the local
    [ev] of a Begin call. *)
Inductive Call :=
| CallBegin (ev0 : FlintBeginEventMax) (when : Z) (name : option (list byte))
            (name_len tid pid : Z)
| CallEnd (when tid pid : Z).

Definition do_call (ctx : option FlintContext) (wb : option FlintWriteBuffer)
    (c : Call) : option Ret :=
  match c with
  | CallBegin ev0 when name name_len tid pid =>
    FlintTraceBeginLenTidPid ev0 ctx wb when name name_len tid pid
  | CallEnd when tid pid =>
    Some (FlintTraceEndTidPid ctx wb when tid pid)
  end.

(** A run of calls on one context and one buffer, with the value each call
    returned. *)
Fixpoint run_calls (ctx : option FlintContext) (wb : option FlintWriteBuffer)
    (calls : list Call)
  : option (list bool * option FlintContext * option FlintWriteBuffer) :=
  match calls with
  | [] => Some ([], ctx, wb)
  | c :: r =>
    match do_call ctx wb c with
    | None => None
    | Some (ok, ctx1, wb1) =>
      match run_calls ctx1 wb1 r with
      | None => None
      | Some (oks, ctx2, wb2) => Some (ok :: oks, ctx2, wb2)
      end
    end
  end.

(** The event a successful call stands for: a Begin carries the first
    [min(name_len, 255)] bytes of the caller's name. *)
Definition event_of_call (c : Call) : TraceEvent :=
  match c with
  | CallBegin _ when name name_len tid pid =>
    mkEvent FlintEventType_Begin pid tid when
            (take (Z.to_nat (Z.min name_len 255))
                  (match name with Some nm => nm | None => [] end))
  | CallEnd when tid pid => mkEvent FlintEventType_End pid tid when []
  end.

(** Arguments within their C types. *)
Definition call_ok (c : Call) : Prop :=
  match c with
  | CallBegin _ when _ _ tid pid
  | CallEnd when tid pid =>
    0 <= pid < u32_mod /\ 0 <= tid < u32_mod /\ 0 <= when < u64_mod
  end.

Definition event_ok (e : TraceEvent) : Prop :=
  0 <= e_pid e < u32_mod /\ 0 <= e_tid e < u32_mod /\ 0 <= e_ts e < u64_mod /\
  ((e_tag e = FlintEventType_Begin /\ (length (e_name e) <= 255)%nat) \/
   (e_tag e = FlintEventType_End /\ e_name e = [])).

(** The conditions under which Begin refuses a call. *)
Definition begin_invalid (ctx : option FlintContext) (name : option (list byte))
    (name_len : Z) : Prop :=
  ctx = None \/
  (exists c, ctx = Some c /\ file c = None) \/
  (exists c f, ctx = Some c /\ file c = Some f /\ (feof f = true \/ ferror f = true)) \/
  name = None \/
  name_len <= 0.

(** The doubles 1.0 and 2.0. *)
Definition double_1_0 : Z := 0x3FF0000000000000.
Definition double_2_0 : Z := 0x4000000000000000.

(** The C string ["A"]. *)
Definition cstr_A : list byte := [Byte.x41; Byte.x00].

(** init("t.bin", 1.0); traceBegin(1.0, "A"); traceEnd(2.0); quit(), the
    events issued without a write buffer: the two return values and the
    world afterwards. *)
Definition scenario_t_bin (reserved0 : byte) (ev0 : FlintBeginEventMax) (w0 : World)
  : option (bool * bool * World) :=
  let '(c, w1) := FlintInit reserved0 (Some "t.bin"%string) double_1_0 w0 in
  match FlintTraceBegin ev0 (Some c) None double_1_0 (Some cstr_A) with
  | None => None
  | Some (r1, c1, _) =>
    let '(r2, c2, _) := FlintTraceEnd c1 None double_2_0 in
    let '(_, w2) := FlintQuit c2 w1 in
    Some (r1, r2, w2)
  end.

(** FlintInitJson(filename, unit) directly followed by FlintQuit. *)
Definition scenario_json_no_events (reserved0 : byte) (filename : string)
    (timestamp_unit : Z) (w0 : World) : FlintContext * World :=
  let '(c, w1) := FlintInitJson reserved0 (Some filename) timestamp_unit w0 in
  let '(_, w2) := FlintQuit (Some c) w1 in
  (c, w2).

(** A stack area holding the character Z throughout. *)
Definition ev0_Z : FlintBeginEventMax :=
  mkBeginMax 0 0 0 0 0 (replicate 255 Byte.x5a).

(** Concrete inputs the properties are exercised on. *)

(** A healthy stream with nothing in it yet. *)
Definition ex_stream : FILE := mkFILE "t.bin" [] 0 false false [].

(** The same stream with its error indicator set. *)
Definition ex_stream_err : FILE := mkFILE "t.bin" [] 0 false true [].

Definition ex_ctx : FlintContext := mkContext (Some ex_stream) double_1_0 0.
Definition ex_ctx_err : FlintContext := mkContext (Some ex_stream_err) double_1_0 0.

(** A buffer of 32 bytes: it takes the Begin record of ["A"], and must be
    flushed before the End record fits. *)
Definition ex_wb : FlintWriteBuffer := mkWB 32 0 (replicate 32 Byte.x00).

Definition ex_calls : list Call :=
  [CallBegin ev0_Z double_1_0 (Some cstr_A) 1 0 0; CallEnd double_2_0 0 0].

(** A buffer of 4 bytes and payloads that are appended (3 bytes), appended
    after a flush (2 bytes), written past the buffer (5 bytes), and empty. *)
Definition ex_small_wb : FlintWriteBuffer := mkWB 4 0 (replicate 4 Byte.x00).
Definition ex_payloads : list (list byte) :=
  [[Byte.x01; Byte.x02; Byte.x03]; [Byte.x04; Byte.x05];
   [Byte.x06; Byte.x07; Byte.x08; Byte.x09; Byte.x0a]; []].

(** A name of 1000 bytes. *)
Definition ex_long_name : list byte := replicate 1000 Byte.x41.

(** Stand-ins for the product of doubles and for [%f], where a statement
    is closed. *)
Definition fmul0 : Z -> Z -> Z := fun _ _ => 0.
Definition printf_f0 : Z -> list byte := fun _ => [].

(** ** Vocabulary of the further properties *)

(** [f'] is a later state of the stream [f]: the same file, and still
    granting every request if [f] did. *)
Definition follows (f f' : FILE) : Prop :=
  f_path f' = f_path f /\ (sink_ok f -> sink_ok f').

(** The object a JSON-mode call prints, for a context of unit [tu]: a Begin
    prints as name what the stack held under [ev], up to [min(name_len, 255)]
    characters. *)
Definition json_text_of_call (tu : Z) (c : Call) : list byte :=
  match c with
  | CallBegin ev0 when _ name_len tid pid =>
    json_begin_text
      (printf_prec_s (Z.to_nat (Z.min name_len 255)) (ev_name_bytes ev0))
      pid tid (fmul when tu)
  | CallEnd when tid pid => json_end_text pid tid (fmul when tu)
  end.

(** A stream whose next request fails. *)
Definition ex_stream_failing : FILE := mkFILE "t.bin" [] 0 false false [false].

(** A buffer of 4 bytes that holds two. *)
Definition ex_wb_two : FlintWriteBuffer :=
  mkWB 4 2 [Byte.x01; Byte.x02; Byte.x00; Byte.x00].


(** The conditions under which End refuses a call. *)
Definition end_invalid (ctx : option FlintContext) : Prop :=
  ctx = None \/
  (exists c, ctx = Some c /\ file c = None) \/
  (exists c f, ctx = Some c /\ file c = Some f /\ (feof f = true \/ ferror f = true)).


(** The number of bytes of the record of a call. *)
Definition record_size (c : Call) : nat :=
  match c with
  | CallBegin _ _ _ name_len _ _ => 18 + Z.to_nat (Z.min name_len 255)
  | CallEnd _ _ _ => 17
  end.


(** An open context in JSON mode. *)
Definition ex_ctx_json : FlintContext := mkContext (Some ex_stream) double_1_0 1.

(** The C string ["AB"], with the bytes C and D behind its terminator. *)
Definition ex_cstring_head : list byte := [Byte.x41; Byte.x42].
Definition ex_cstring_tail : list byte := [Byte.x43; Byte.x44].

Definition ex_three : list byte := [Byte.x03; Byte.x04; Byte.x05].
Definition ex_five : list byte := [Byte.x06; Byte.x07; Byte.x08; Byte.x09; Byte.x0a].

(** * Properties *)

(** ** Bytes and integers *)

Lemma Z_of_byte_range b : 0 <= Z_of_byte b < 256.
Proof.
  unfold Z_of_byte. pose proof (Byte.to_N_bounded b) as H. lia.
Qed.

Lemma byte_of_Z_of_byte b : byte_of_Z (Z_of_byte b) = b.
Proof.
  unfold byte_of_Z. rewrite Z.mod_small by apply Z_of_byte_range.
  unfold Z_of_byte. rewrite N2Z.id, Byte.of_to_N. reflexivity.
Qed.

Lemma Z_of_byte_of_Z z : Z_of_byte (byte_of_Z z) = z mod 256.
Proof.
  unfold byte_of_Z, Z_of_byte.
  assert (Hr : 0 <= z mod 256 < 256) by (apply Z.mod_pos_bound; lia).
  destruct (Byte.of_N (Z.to_N (z mod 256))) as [b|] eqn:E.
  - apply Byte.to_of_N in E. rewrite E. lia.
  - apply Byte.of_N_None_iff in E. lia.
Qed.

Lemma length_le_bytes n x : length (le_bytes n x) = n.
Proof. revert x. induction n as [|n IH]; intros x; simpl; [reflexivity|]. by rewrite IH. Qed.

Lemma le_value_le_bytes n x :
  0 <= x < 256 ^ Z.of_nat n -> le_value (le_bytes n x) = x.
Proof.
  revert x. induction n as [|n IH]; intros x Hx.
  - simpl in *. lia.
  - cbn [le_bytes le_value]. rewrite Z_of_byte_of_Z.
    rewrite Nat2Z.inj_succ, Z.pow_succ_r in Hx by lia.
    rewrite IH.
    + pose proof (Z.div_mod x 256). lia.
    + split; [apply Z.div_pos; lia|]. apply Z.div_lt_upper_bound; lia.
Qed.

Lemma length_host_bytes be n x : length (host_bytes be n x) = n.
Proof. unfold host_bytes. destruct be; rewrite ?length_rev; apply length_le_bytes. Qed.

Lemma host_value_host_bytes be n x :
  0 <= x < 256 ^ Z.of_nat n -> host_value be (host_bytes be n x) = x.
Proof.
  intros Hx. unfold host_value, host_bytes.
  destruct be; rewrite ?rev_involutive; by apply le_value_le_bytes.
Qed.

(** ** Streams *)

Lemma stream_put_at_end f bs :
  at_end f ->
  f_data (stream_put f bs) = f_data f ++ bs /\ at_end (stream_put f bs).
Proof.
  unfold at_end, stream_put. intros E. cbn.
  rewrite E, take_ge, drop_ge, app_nil_r by lia.
  split; [reflexivity|]. rewrite length_app. lia.
Qed.

Lemma next_io_data f : f_data (next_io f).2 = f_data f /\ f_pos (next_io f).2 = f_pos f
  /\ f_eof (next_io f).2 = f_eof f /\ f_err (next_io f).2 = f_err f.
Proof. unfold next_io. destruct (f_script f); cbn; auto. Qed.

Lemma next_io_sink_ok f : sink_ok f -> (next_io f).1 = true /\ sink_ok (next_io f).2.
Proof.
  unfold sink_ok, next_io. intros H. destruct (f_script f) as [|b s] eqn:E; cbn.
  - split; [reflexivity|]. by rewrite E.
  - inversion H; subst. auto.
Qed.

Lemma fwrite_ok p f r f' :
  at_end f -> fwrite p f = (r, f') -> r <> 0 ->
  r = 1 /\ f_data f' = f_data f ++ p /\ at_end f' /\ f_err f' = f_err f /\ f_eof f' = f_eof f.
Proof.
  intros E H Hr. unfold fwrite in H. destruct p as [|b p].
  - inversion H; subst. lia.
  - destruct (next_io f) as [ok f1] eqn:En.
    pose proof (next_io_data f) as (Hd & Hp & He & Hx). rewrite En in Hd, Hp, He, Hx. cbn in *.
    destruct ok; inversion H; subst; [|lia].
    assert (E1 : at_end f1) by (unfold at_end; congruence).
    destruct (stream_put_at_end f1 (b :: p) E1) as [-> ?].
    rewrite Hd. cbn. auto.
Qed.

Lemma fwrite_sink_ok p f :
  sink_ok f -> p <> [] -> (fwrite p f).1 = 1 /\ sink_ok (fwrite p f).2.
Proof.
  intros H Hp. unfold fwrite. destruct p as [|b p]; [done|].
  destruct (next_io_sink_ok f H) as [E1 E2].
  destruct (next_io f) as [ok f1]. cbn in *. subst ok. cbn. split; [reflexivity|].
  exact E2.
Qed.

(** ** The write buffer: one call *)

Lemma memcpy_at_spec (d : list byte) h (p : list byte) :
  (h + length p <= length d)%nat ->
  take (h + length p) (memcpy_at d h p) = take h d ++ p /\
  length (memcpy_at d h p) = length d.
Proof.
  intros Hl. unfold memcpy_at. split.
  - rewrite app_assoc, take_app_le by (rewrite length_app, length_take; lia).
    rewrite take_ge; [reflexivity|]. rewrite length_app, length_take. lia.
  - rewrite !length_app, length_take, length_drop. lia.
Qed.

Lemma size_add_small a n :
  0 <= a < u32_mod -> 0 <= n < 2 ^ 63 -> size_add a n = a + n.
Proof.
  unfold size_add, u64_mod, u32_mod. intros Ha Hn. apply Z.mod_small. lia.
Qed.

Lemma BufferFlush_true wb f wb' f' :
  wb_ok wb -> at_end f ->
  Flint__BufferFlush wb f = (true, wb', f') ->
  wb_ok wb' /\ wb_head wb' = 0 /\ wb_length wb' = wb_length wb /\
  wb_data wb' = wb_data wb /\
  at_end f' /\ f_data f' = f_data f ++ held wb /\
  f_err f' = f_err f /\ f_eof f' = f_eof f.
Proof.
  intros (Hh & Hl & Hd) E H. unfold Flint__BufferFlush in H.
  destruct (wb_head wb =? 0) eqn:E0.
  - apply Z.eqb_eq in E0. inversion H; subst.
    unfold held. rewrite E0. cbn. rewrite app_nil_r. unfold wb_ok. auto 10.
  - destruct (fwrite (held wb) f) as [r f1] eqn:Ew.
    destruct (r =? 1) eqn:Er; cbn in H; [|discriminate].
    apply Z.eqb_eq in Er. inversion H; subst.
    destruct (fwrite_ok _ _ _ _ E Ew) as (_ & ? & ? & ? & ?); [lia|].
    unfold wb_ok, set_head. cbn. repeat split; auto; lia.
Qed.

Lemma BufferWrite_true wb f p wb' f' :
  wb_ok wb -> at_end f -> object_size p ->
  Flint__BufferWrite wb f p = (true, wb', f') ->
  wb_ok wb' /\ wb_length wb' = wb_length wb /\ at_end f' /\
  f_data f' ++ held wb' = f_data f ++ held wb ++ p /\
  f_err f' = f_err f /\ f_eof f' = f_eof f.
Proof.
  intros Hok E Hp H. unfold Flint__BufferWrite in H.
  pose proof Hok as (Hh & Hl & Hd). unfold object_size in Hp.
  rewrite size_add_small in H by lia.
  set (n := Z.of_nat (length p)) in *.
  assert (Hstep : forall wb1 f1, wb_ok wb1 -> at_end f1 ->
    (wb_length wb1 < n -> wb_head wb1 = 0) ->
    (n <= wb_length wb1 -> wb_head wb1 + n <= wb_length wb1) ->
    (if n >? wb_length wb1
     then let '(r, f2) := fwrite p f1 in (negb (r =? 0), wb1, f2)
     else (true, mkWB (wb_length wb1) (u32_add (wb_head wb1) n)
                   (memcpy_at (wb_data wb1) (Z.to_nat (wb_head wb1)) p), f1))
      = (true, wb', f') ->
    wb_ok wb' /\ wb_length wb' = wb_length wb1 /\ at_end f' /\
    f_data f' ++ held wb' = f_data f1 ++ held wb1 ++ p /\
    f_err f' = f_err f1 /\ f_eof f' = f_eof f1).
  { intros wb1 f1 (Hh1 & Hl1 & Hd1) E1 Hbig Hfit H1.
    destruct (n >? wb_length wb1) eqn:Egt.
    - destruct (fwrite p f1) as [r f2] eqn:Ew.
      destruct (r =? 0) eqn:Er; cbn in H1; [discriminate|].
      apply Z.eqb_neq in Er. inversion H1; subst.
      destruct (fwrite_ok _ _ _ _ E1 Ew Er) as (_ & Hdat & ? & ? & ?).
      assert (wb_head wb' = 0) as Hz by (apply Hbig; lia).
      unfold wb_ok. repeat split; auto; try lia.
      rewrite Hdat. unfold held. rewrite Hz. cbn. by rewrite app_nil_r.
    - assert (Hle : n <= wb_length wb1) by lia.
      specialize (Hfit Hle). inversion H1; subst. clear H1.
      unfold u32_add. rewrite Z.mod_small by (unfold n; lia).
      destruct (memcpy_at_spec (wb_data wb1) (Z.to_nat (wb_head wb1)) p) as [Ht Hlen];
        [unfold n in *; lia|].
      unfold wb_ok, held. cbn. repeat split; auto; try (unfold n in *; lia).
      replace (Z.to_nat (wb_head wb1 + n)) with (Z.to_nat (wb_head wb1) + length p)%nat
        by (unfold n; lia).
      rewrite Ht. reflexivity. }
  destruct (wb_head wb + n >? wb_length wb) eqn:Egt.
  - destruct (Flint__BufferFlush wb f) as [[ok wb1] f1] eqn:Ef.
    destruct ok; cbn [negb] in H; [|discriminate].
    destruct (BufferFlush_true _ _ _ _ Hok E Ef) as (Hok1 & Hz & Hlen & _ & E1 & Hdat & He & Hx).
    destruct (Hstep wb1 f1 Hok1 E1) as (? & ? & ? & Hfin & ? & ?); [lia | lia | exact H |].
    split_and!; auto; try congruence.
    rewrite Hfin, Hdat. rewrite <- app_assoc. f_equal.
    unfold held at 2. rewrite Hz. reflexivity.
  - cbn [negb] in H.
    destruct (Hstep wb f Hok E) as (? & ? & ? & Hfin & ? & ?); [lia | lia | exact H |].
    split_and!; auto.
Qed.

Lemma length_held wb : wb_ok wb -> Z.of_nat (length (held wb)) = wb_head wb.
Proof. intros (Hh & Hl & Hd). unfold held. rewrite length_take. lia. Qed.

Lemma BufferFlush_sink_ok wb f :
  wb_ok wb -> sink_ok f ->
  (Flint__BufferFlush wb f).1.1 = true /\ sink_ok (Flint__BufferFlush wb f).2.
Proof.
  intros Hok Hs. unfold Flint__BufferFlush.
  destruct (wb_head wb =? 0) eqn:E0; [auto|]. apply Z.eqb_neq in E0.
  assert (Hne : held wb <> []).
  { intros Hn. pose proof (length_held wb Hok) as Hl. rewrite Hn in Hl. cbn in Hl. lia. }
  destruct (fwrite_sink_ok (held wb) f Hs Hne) as [E1 E2].
  destruct (fwrite (held wb) f) as [r f1]. cbn in *. subst r. cbn. auto.
Qed.

Lemma BufferWrite_sink_ok wb f p :
  wb_ok wb -> sink_ok f -> object_size p ->
  (Flint__BufferWrite wb f p).1.1 = true /\ sink_ok (Flint__BufferWrite wb f p).2.
Proof.
  intros Hok Hs Hp. unfold Flint__BufferWrite.
  assert (Hstep : forall wb1 f1, sink_ok f1 -> 0 <= wb_length wb1 ->
    let r := (if Z.of_nat (length p) >? wb_length wb1
     then let '(r, f2) := fwrite p f1 in (negb (r =? 0), wb1, f2)
     else (true, mkWB (wb_length wb1) (u32_add (wb_head wb1) (Z.of_nat (length p)))
                   (memcpy_at (wb_data wb1) (Z.to_nat (wb_head wb1)) p), f1)) in
    r.1.1 = true /\ sink_ok r.2).
  { intros wb1 f1 Hs1 Hl1. destruct (Z.of_nat (length p) >? wb_length wb1) eqn:Egt; cbn.
    - apply Z.gtb_lt in Egt.
      assert (Hne : p <> []) by (intros ->; cbn in Egt; lia).
      destruct (fwrite_sink_ok p f1 Hs1 Hne) as [E1 E2].
      destruct (fwrite p f1) as [r f2]. cbn in *. subst r. cbn. auto.
    - auto. }
  destruct (size_add (wb_head wb) (Z.of_nat (length p)) >? wb_length wb).
  - destruct (BufferFlush_sink_ok wb f Hok Hs) as [E1 E2].
    destruct (Flint__BufferFlush wb f) as [[ok wb1] f1] eqn:Ef. cbn in E1, E2. subst ok.
    cbn [negb].
    assert (wb_length wb1 = wb_length wb) as Hlen.
    { unfold Flint__BufferFlush in Ef. destruct (wb_head wb =? 0).
      - by inversion Ef.
      - destruct (fwrite (held wb) f) as [r f0]. destruct (negb (r =? 1)); by inversion Ef. }
    apply Hstep; [exact E2|]. destruct Hok as (? & ? & ?). lia.
  - cbn [negb]. apply Hstep; [exact Hs|]. destruct Hok as (? & ? & ?). lia.
Qed.

(** ** The write buffer: runs of calls *)

Lemma buffer_writes_true ps : forall wb f oks wb' f',
  wb_ok wb -> at_end f -> Forall object_size ps ->
  buffer_writes wb f ps = (oks, wb', f') -> Forall (fun b => b = true) oks ->
  wb_ok wb' /\ at_end f' /\
  f_data f' ++ held wb' = f_data f ++ held wb ++ concat ps.
Proof.
  induction ps as [|p ps IH]; intros wb f oks wb' f' Hok E Hps H Hall.
  - cbn in H. inversion H; subst. cbn. by rewrite app_nil_r.
  - cbn in H. inversion Hps as [|? ? Hp Hps']; subst.
    destruct (Flint__BufferWrite wb f p) as [[ok wb1] f1] eqn:Ew.
    destruct (buffer_writes wb1 f1 ps) as [[oks1 wb2] f2] eqn:Er.
    inversion H; subst. inversion Hall as [|? ? -> Hall']; subst.
    destruct (BufferWrite_true _ _ _ _ _ Hok E Hp Ew) as (Hok1 & _ & E1 & Hd & _ & _).
    destruct (IH _ _ _ _ _ Hok1 E1 Hps' Er Hall') as (Hok2 & E2 & Hd2).
    split_and!; auto. rewrite Hd2. cbn. rewrite !app_assoc. f_equal.
    rewrite <- app_assoc. exact Hd.
Qed.

Lemma buffer_writes_sink_ok ps : forall wb f,
  wb_ok wb -> at_end f -> sink_ok f -> Forall object_size ps ->
  Forall (fun b => b = true) (buffer_writes wb f ps).1.1 /\
  sink_ok (buffer_writes wb f ps).2.
Proof.
  induction ps as [|p ps IH]; intros wb f Hok E Hs Hps.
  - cbn. auto.
  - cbn. inversion Hps as [|? ? Hp Hps']; subst.
    destruct (BufferWrite_sink_ok wb f p Hok Hs Hp) as [E1 E2].
    destruct (Flint__BufferWrite wb f p) as [[ok wb1] f1] eqn:Ew. cbn in E1, E2. subst ok.
    destruct (BufferWrite_true _ _ _ _ _ Hok E Hp Ew) as (Hok1 & _ & Ee1 & _).
    destruct (IH wb1 f1 Hok1 Ee1 E2 Hps') as [A B].
    destruct (buffer_writes wb1 f1 ps) as [[oks1 wb2] f2]. cbn in *. auto.
Qed.



(** ** Reading records back *)

Lemma decode_record_cons t r :
  decode_record (t :: r) =
  if (length r <? 16)%nat then None
  else
    let tag := Z_of_byte t in
    let pid := host_value big_endian (take 4 r) in
    let tid := host_value big_endian (take 4 (drop 4 r)) in
    let ts := host_value big_endian (take 8 (drop 8 r)) in
    let rest := drop 16 r in
    if tag =? FlintEventType_Begin then
      match rest with
      | [] => None
      | l :: r2 =>
        let k := Z.to_nat (Z_of_byte l) in
        if (length r2 <? k)%nat then None
        else Some (mkEvent tag pid tid ts (take k r2), drop k r2)
      end
    else if tag =? FlintEventType_End then Some (mkEvent tag pid tid ts [], rest)
    else None.
Proof. reflexivity. Qed.

Lemma decode_record_layout e rest :
  event_ok e -> decode_record (record_layout e ++ rest) = Some (e, rest).
Proof.
  intros (Hp & Ht & Hw & Hk). unfold record_layout.
  set (P := host_bytes big_endian 4 (e_pid e)).
  set (T := host_bytes big_endian 4 (e_tid e)).
  set (W := host_bytes big_endian 8 (e_ts e)).
  assert (HP : length P = 4%nat) by apply length_host_bytes.
  assert (HT : length T = 4%nat) by apply length_host_bytes.
  assert (HW : length W = 8%nat) by apply length_host_bytes.
  assert (Vp : host_value big_endian P = e_pid e)
    by (apply host_value_host_bytes; unfold u32_mod in *; lia).
  assert (Vt : host_value big_endian T = e_tid e)
    by (apply host_value_host_bytes; unfold u32_mod in *; lia).
  assert (Vw : host_value big_endian W = e_ts e)
    by (apply host_value_host_bytes; unfold u64_mod in *; lia).
  assert (E1 : forall X, take 4 (P ++ T ++ W ++ X) = P).
  { intros X. by apply take_app_length'. }
  assert (E2 : forall X, take 4 (drop 4 (P ++ T ++ W ++ X)) = T).
  { intros X. rewrite drop_app_length' by done. by apply take_app_length'. }
  assert (E3 : forall X, take 8 (drop 8 (P ++ T ++ W ++ X)) = W).
  { intros X. rewrite (app_assoc P T).
    rewrite drop_app_length' by (rewrite length_app; lia). by apply take_app_length'. }
  assert (E4 : forall X, drop 16 (P ++ T ++ W ++ X) = X).
  { intros X. rewrite (app_assoc P T), (app_assoc (P ++ T) W).
    apply drop_app_length'. rewrite !length_app. lia. }
  assert (EL : forall X, (length (P ++ T ++ W ++ X) <? 16)%nat = false).
  { intros X. apply Nat.ltb_ge. rewrite !length_app. lia. }
  match goal with
  | |- decode_record (([?b] ++ ?A) ++ ?r) = ?R =>
    change (decode_record (b :: (A ++ r)) = R)
  end.
  rewrite decode_record_cons. cbv zeta.
  rewrite <- !app_assoc. rewrite EL, E1, E2, E3, E4, Vp, Vt, Vw.
  rewrite Z_of_byte_of_Z.
  destruct Hk as [[Hg Hn] | [Hg Hn]]; rewrite Hg.
  - change (FlintEventType_Begin mod 256) with FlintEventType_Begin.
    rewrite Z.eqb_refl. cbn [app]. rewrite Z_of_byte_of_Z.
    rewrite Z.mod_small by lia. rewrite Nat2Z.id.
    rewrite take_app_length, drop_app_length.
    replace (length (e_name e ++ rest) <? length (e_name e))%nat with false.
    + do 2 f_equal. clear -Hg. destruct e; cbn in *; by subst.
    + symmetry. apply Nat.ltb_ge. rewrite length_app. lia.
  - change (FlintEventType_End mod 256) with FlintEventType_End.
    change (FlintEventType_End =? FlintEventType_Begin) with false.
    rewrite Z.eqb_refl. cbn [app]. do 2 f_equal. clear -Hg Hn. destruct e; cbn in *; by subst.
Qed.

Lemma decode_fuel_layout es : forall fuel,
  Forall event_ok es -> (length es <= fuel)%nat ->
  decode_fuel fuel (concat (map record_layout es)) = Some es.
Proof.
  induction es as [|e es IH]; intros fuel Hes Hf.
  - by destruct fuel.
  - inversion Hes as [|? ? He Hes']; subst. cbn [map concat].
    destruct fuel as [|fuel]; [cbn in Hf; lia|].
    pose proof (decode_record_layout e (concat (map record_layout es)) He) as Hd.
    unfold record_layout at 1. unfold record_layout at 1 in Hd.
    match goal with
    | |- decode_fuel _ (([?b] ++ ?A) ++ ?r) = ?R =>
      change (match decode_record (([b] ++ A) ++ r) with
              | None => None
              | Some (e', rest) => cons e' <$> decode_fuel fuel rest
              end = R)
    end.
    rewrite Hd, IH; [reflexivity | assumption | cbn in Hf; lia].
Qed.

Lemma length_record_layout e : (1 <= length (record_layout e))%nat.
Proof. unfold record_layout. cbn. lia. Qed.

Lemma length_layouts es : (length es <= length (concat (map record_layout es)))%nat.
Proof.
  induction es as [|e es IH]; cbn; [lia|].
  rewrite length_app. pose proof (length_record_layout e). lia.
Qed.

Lemma decode_records_layout es :
  Forall event_ok es -> decode_records (concat (map record_layout es)) = Some es.
Proof.
  intros H. unfold decode_records. apply decode_fuel_layout; [assumption|].
  apply length_layouts.
Qed.

(** ** The event calls in binary mode *)

Lemma clamp_name_len name_len :
  0 < name_len ->
  let L := if name_len >? 255 then 255 else name_len in
  L = Z.min name_len 255 /\ L mod 256 = L /\ 0 < L <= 255.
Proof.
  intros Hp L. subst L. destruct (name_len >? 255) eqn:E.
  - apply Z.gtb_lt in E. split_and!; try lia. reflexivity.
  - assert (name_len <= 255) by lia. rewrite Z.mod_small by lia. lia.
Qed.

Lemma begin_payload nb pid tid when (nm : list byte) L :
  0 < L <= 255 -> (Z.to_nat L <= length nm)%nat ->
  take (Z.to_nat (sizeof_FlintBeginEvent + L - 1))
       (begin_bytes
          (mkBeginMax FlintEventType_Begin pid tid when L
                      (memcpy_at nb 0 (take (Z.to_nat L) nm)))) =
  record_layout (mkEvent FlintEventType_Begin pid tid when (take (Z.to_nat L) nm)).
Proof.
  intros HL Hn. unfold begin_bytes, record_layout, memcpy_at.
  cbn [ev_type ev_pid ev_tid ev_when ev_name_length ev_name_bytes
       e_tag e_pid e_tid e_ts e_name].
  rewrite Z.eqb_refl. rewrite length_take, Nat.min_l by lia.
  rewrite Z2Nat.id by lia. cbn [take].
  rewrite (app_nil_l (take _ nm ++ _)).
  rewrite !app_assoc. apply take_app_length'.
  rewrite !length_app, !length_host_bytes, length_take. cbn [length].
  unfold sizeof_FlintBeginEvent. lia.
Qed.

Lemma held_wb_back wb b1 :
  wb_ok b1 -> wb_length b1 = wb_length (wb_or_zero wb) ->
  wb_ok (wb_or_zero (wb_back wb b1)) /\ held (wb_or_zero (wb_back wb b1)) = held b1.
Proof.
  intros Hok Hl. destruct wb as [b|]; cbn in *; [auto|].
  split; [unfold wb_ok, wb_zero, u32_mod; cbn; lia|].
  destruct Hok as (Hh & _ & _). unfold held.
  replace (wb_head b1) with 0 by lia. reflexivity.
Qed.

Lemma wb_zero_ok : wb_ok wb_zero.
Proof. unfold wb_ok, wb_zero, u32_mod; cbn; lia. Qed.

Lemma object_size_take n (l : list byte) :
  Z.of_nat n < 2 ^ 63 -> object_size (take n l).
Proof. unfold object_size. rewrite length_take. lia. Qed.

(** One successful call in binary mode appends the record of its event. *)
Lemma do_call_binary c f wb call ctx' wb' :
  file c = Some f -> is_json c = 0 -> wb_ok (wb_or_zero wb) -> at_end f ->
  do_call (Some c) wb call = Some (true, ctx', wb') ->
  exists c' f', ctx' = Some c' /\ file c' = Some f' /\ is_json c' = 0 /\
    wb_ok (wb_or_zero wb') /\ at_end f' /\
    f_data f' ++ held (wb_or_zero wb') =
      f_data f ++ held (wb_or_zero wb) ++ record_layout (event_of_call call) /\
    (length (e_name (event_of_call call)) <= 255)%nat.
Proof.
  intros Hf Hj Hok E H. destruct call as [ev0 when name name_len tid pid | when tid pid].
  - cbn [do_call] in H. unfold FlintTraceBeginLenTidPid in H.
    rewrite Hf, Hj in H. destruct name as [nm|]; [|discriminate].
    destruct (feof f); [discriminate|]. destruct (ferror f); [discriminate|].
    destruct (name_len <=? 0) eqn:Ep; [discriminate|]. apply Z.leb_gt in Ep.
    destruct (clamp_name_len name_len Ep) as (HL & Hm & Hr).
    set (L := if name_len >? 255 then 255 else name_len) in *.
    change (0 =? 0) with true in H. cbn [negb] in H. cbv iota in H.
    cbn [ev_type ev_pid ev_tid ev_when ev_name_length ev_name_bytes] in H.
    rewrite Hm in H.
    destruct (length nm <? Z.to_nat L)%nat eqn:El; [discriminate|].
    apply Nat.ltb_ge in El.
    rewrite begin_payload in H by assumption.
    destruct (Flint__BufferWrite _ f _) as [[ok b1] f1] eqn:Ew.
    destruct ok; cbn [negb] in H; [|discriminate].
    inversion H; subst ctx' wb'. clear H.
    assert (Hsz : object_size (record_layout
              (mkEvent FlintEventType_Begin pid tid when (take (Z.to_nat L) nm)))).
    { unfold object_size, record_layout. cbn. rewrite !length_app, !length_host_bytes.
      cbn. rewrite length_take. lia. }
    destruct (BufferWrite_true _ _ _ _ _ Hok E Hsz Ew) as (Hok1 & Hlen & E1 & Hd & _ & _).
    destruct (held_wb_back wb b1 Hok1 Hlen) as [Hok2 Hh2].
    exists (set_file c f1), f1. cbn [event_of_call default e_name].
    rewrite <- HL. split_and!; auto.
    + by rewrite Hh2.
    + rewrite length_take. lia.
  - cbn [do_call] in H. unfold FlintTraceEndTidPid in H.
    rewrite Hf, Hj in H.
    destruct (feof f); [discriminate|]. destruct (ferror f); [discriminate|].
    change (0 =? 0) with true in H. cbn [negb] in H. cbv iota in H.
    set (p := take _ _) in H.
    assert (Hp : p = record_layout (event_of_call (CallEnd when tid pid))).
    { subst p. unfold end_bytes, record_layout. cbn [event_of_call e_tag e_pid e_tid e_ts e_name
        ee_type ee_pid ee_tid ee_when].
      change (FlintEventType_End =? FlintEventType_Begin) with false. cbv iota.
      rewrite app_nil_r. apply take_ge.
      change (Z.to_nat sizeof_FlintEndEvent) with 17%nat.
      rewrite !length_app, !length_host_bytes. cbn. lia. }
    rewrite Hp in H.
    destruct (Flint__BufferWrite _ f _) as [[ok b1] f1] eqn:Ew.
    destruct ok; cbn [negb] in H; [|discriminate].
    inversion H; subst ctx' wb'. clear H.
    assert (Hsz : object_size (record_layout (event_of_call (CallEnd when tid pid)))).
    { unfold object_size, record_layout. cbn. rewrite !length_app, !length_host_bytes.
      cbn. lia. }
    destruct (BufferWrite_true _ _ _ _ _ Hok E Hsz Ew) as (Hok1 & Hlen & E1 & Hd & _ & _).
    destruct (held_wb_back wb b1 Hok1 Hlen) as [Hok2 Hh2].
    exists (set_file c f1), f1. split_and!; auto.
    + by rewrite Hh2.
    + cbn. lia.
Qed.

Lemma event_of_call_ok call :
  call_ok call -> (length (e_name (event_of_call call)) <= 255)%nat ->
  event_ok (event_of_call call).
Proof.
  destruct call as [ev0 when name name_len tid pid | when tid pid];
    cbn; intros (? & ? & ?) Hl; unfold event_ok; cbn; split_and!; auto; try lia.
Qed.

Lemma run_calls_binary calls : forall c f wb oks ctx' wb',
  file c = Some f -> is_json c = 0 -> wb_ok (wb_or_zero wb) -> at_end f ->
  Forall call_ok calls ->
  run_calls (Some c) wb calls = Some (oks, ctx', wb') ->
  Forall (fun b => b = true) oks ->
  exists c' f', ctx' = Some c' /\ file c' = Some f' /\
    wb_ok (wb_or_zero wb') /\ at_end f' /\
    f_data f' ++ held (wb_or_zero wb') =
      f_data f ++ held (wb_or_zero wb) ++
      concat (map record_layout (map event_of_call calls)) /\
    Forall event_ok (map event_of_call calls).
Proof.
  induction calls as [|call calls IH]; intros c f wb oks ctx' wb' Hf Hj Hok E Hc H Hall.
  - cbn in H. inversion H; subst. exists c, f. cbn. rewrite app_nil_r. auto 10.
  - cbn [run_calls] in H. inversion Hc as [|? ? Hc1 Hc']; subst.
    destruct (do_call (Some c) wb call) as [[[ok ctx1] wb1]|] eqn:Ed; [|discriminate].
    destruct (run_calls ctx1 wb1 calls) as [[[oks1 ctx2] wb2]|] eqn:Er; [|discriminate].
    inversion H; subst. inversion Hall as [|? ? -> Hall']; subst.
    destruct (do_call_binary _ _ _ _ _ _ Hf Hj Hok E Ed)
      as (c1 & f1 & -> & Hf1 & Hj1 & Hok1 & E1 & Hd1 & Hn1).
    destruct (IH _ _ _ _ _ _ Hf1 Hj1 Hok1 E1 Hc' Er Hall')
      as (c2 & f2 & -> & Hf2 & Hok2 & E2 & Hd2 & Hev).
    exists c2, f2. split_and!; auto.
    + rewrite Hd2. cbn [map concat]. rewrite !app_assoc. f_equal.
      rewrite <- app_assoc. exact Hd1.
    + cbn [map]. constructor; [|assumption]. by apply event_of_call_ok.
Qed.


(** ** What [Flint__Init] establishes *)

Lemma length_header_bytes h : length (header_bytes h) = 25%nat.
Proof.
  unfold header_bytes. rewrite !length_app, !length_host_bytes. reflexivity.
Qed.

Lemma fopen_fresh filename w f w' :
  fopen filename w = (Some f, w') ->
  f_path f = filename /\ f_data f = [] /\ f_pos f = 0%nat /\
  f_eof f = false /\ f_err f = false.
Proof.
  unfold fopen. destruct (fopen_script w) as [|[s|] rest]; intros H; inversion H; subst;
    cbn; auto.
Qed.

(** A context that [FlintInit] returns with a sink is in binary mode, and
    its stream holds the header and stands at its end. *)
Lemma FlintInit_stream reserved0 filename tu w c w' f :
  FlintInit reserved0 (Some filename) tu w = (c, w') -> file c = Some f ->
  is_json c = 0 /\ timestamp_unit c = tu /\ at_end f /\
  f_data f = header_bytes (mkHeader flint_magic 0 tu reserved0) /\
  feof f = false /\ ferror f = false.
Proof.
  unfold FlintInit, Flint__Init. intros H Hf.
  destruct (fopen filename w) as [[f0|] w1] eqn:Eo.
  - destruct (fopen_fresh _ _ _ _ Eo) as (_ & Hd & Hp & He & Hx).
    cbn [is_json Z.b2z] in H. change (negb (0 =? 0)) with false in H. cbv iota in H.
    change (Z.to_nat sizeof_FlintHeader) with 25%nat in H.
    rewrite take_ge in H by (rewrite length_header_bytes; lia).
    destruct (fwrite _ f0) as [r f1] eqn:Ew.
    destruct (r =? 1) eqn:Er; cbn [negb] in H.
    + inversion H; subst. cbn in Hf. inversion Hf; subst.
      assert (E0 : at_end f0) by (unfold at_end; rewrite Hd, Hp; reflexivity).
      destruct (fwrite_ok _ _ _ _ E0 Ew) as (_ & Hd1 & E1 & Hx1 & He1); [lia|].
      rewrite Hd in Hd1. cbn in Hd1. unfold feof, ferror.
      split_and!; auto; congruence.
    + unfold FlintQuit_at in H. inversion H; subst. discriminate.
  - unfold FlintQuit_at in H. cbn in H. inversion H; subst. discriminate.
Qed.

(** ** [FlintFlush] on an open context *)


(** ** [FlintQuit] in JSON mode after an event *)

(** When the stream ends in the comma and line end that every event
    leaves, [FlintQuit] puts the epilogue in their place. *)
Lemma FlintQuit_json_replaces_comma c f body w :
  file c = Some f -> is_json c <> 0 -> at_end f -> sink_ok f ->
  f_data f = body ++ [Byte.x2c; nl] ->
  fs (FlintQuit (Some c) w).2 !! f_path f = Some (body ++ json_epilogue).
Proof.
  intros Hf Hj E Hs Hd. unfold FlintQuit, FlintQuit_at. rewrite Hf.
  apply Z.eqb_neq in Hj. rewrite Hj. cbn [negb].
  unfold at_end in E. rewrite Hd, length_app in E. cbn [length] in E.
  unfold fseek_cur.
  replace (Z.of_nat (f_pos f) + -2 <? 0) with false by lia.
  replace (Z.to_nat (Z.of_nat (f_pos f) + -2)) with (length body) by lia.
  unfold fprintf.
  match goal with |- context [next_io ?g] =>
    destruct (next_io_sink_ok g Hs) as [Hn _];
    pose proof (next_io_data g) as (Hd1 & Hp1 & _);
    destruct (next_io g) as [ok g1] eqn:Eg
  end.
  cbn in Hn, Hd1, Hp1. subst ok. cbn [snd fst]. unfold fclose. cbn [fs].
  unfold stream_put. cbn [f_path f_data].
  assert (Hpath : f_path g1 = f_path f).
  { unfold next_io in Eg. cbn in Eg. destruct (f_script f); inversion Eg; reflexivity. }
  rewrite Hpath, lookup_insert_eq. f_equal.
  rewrite Hd1, Hp1, Hd. rewrite take_app_length.
  rewrite drop_ge by (rewrite length_app; cbn; lia).
  by rewrite app_nil_r.
Qed.

(** Every event object ends in that comma and line end. *)
Lemma json_texts_end_in_comma name pid tid ts :
  (exists body, json_begin_text name pid tid ts = body ++ [Byte.x2c; nl]) /\
  (exists body, json_end_text pid tid ts = body ++ [Byte.x2c; nl]).
Proof.
  unfold json_begin_text, json_end_text.
  change (lit "}," ++ [nl]) with ([Byte.x7d] ++ [Byte.x2c; nl]).
  split; eexists; rewrite !app_assoc; reflexivity.
Qed.

(** ** Main results *)

(** C1.  Binary mode: for every run of Begin/End calls that all returned
    true, on a context whose stream stands at its end and with a buffer that
    held nothing (or with no buffer), the bytes the sink holds after the
    buffer is flushed are the bytes it held before (the header) followed by
    one record per call, in call order; each record is tag(1) pid(4) tid(4)
    timestamp(8), with namelen(1) and the name after it for Begin only, the
    name being the first min(name_len, 255) bytes of the caller's name; and
    reading these bytes back yields exactly the sequence of events. *)
Theorem binary_trace_round_trip c f wb calls oks c' wb' f' b2 f2 :
  file c = Some f -> is_json c = 0 -> at_end f ->
  wb_ok (wb_or_zero wb) -> wb_head (wb_or_zero wb) = 0 ->
  Forall call_ok calls ->
  run_calls (Some c) wb calls = Some (oks, Some c', wb') ->
  Forall (fun b => b = true) oks ->
  file c' = Some f' ->
  Flint__BufferFlush (wb_or_zero wb') f' = (true, b2, f2) ->
  f_data f2 = f_data f ++ concat (map record_layout (map event_of_call calls)) /\
  decode_records (drop (length (f_data f)) (f_data f2)) = Some (map event_of_call calls).
Proof.
  intros Hf Hj E Hok H0 Hc Hr Hall Hf' Hfl.
  destruct (run_calls_binary calls _ _ _ _ _ _ Hf Hj Hok E Hc Hr Hall)
    as (c1 & f1 & Hc1 & Hf1 & Hok' & E' & Hd & Hev).
  inversion Hc1; subst c1. rewrite Hf' in Hf1. inversion Hf1; subst f1.
  destruct (BufferFlush_true _ _ _ _ Hok' E' Hfl) as (_ & _ & _ & _ & _ & Hd2 & _).
  assert (Hdata : f_data f2 =
            f_data f ++ concat (map record_layout (map event_of_call calls))).
  { rewrite Hd2, Hd. unfold held at 1. rewrite H0. reflexivity. }
  split; [exact Hdata|].
  rewrite Hdata, drop_app_length. by apply decode_records_layout.
Qed.

(** C6.  For a buffer of any capacity that holds nothing, a stream at its
    end that grants every request, and any run of [Flint__BufferWrite]
    calls: every call returns true, the final flush returns true, and the
    sink then holds what it held before followed by the payloads, one after
    the other in call order, whether a payload was appended to the buffer,
    appended after a flush, or written past the buffer. *)
Theorem buffer_stream_is_concatenation wb f ps :
  wb_ok wb -> wb_head wb = 0 -> at_end f -> sink_ok f -> Forall object_size ps ->
  forall oks wb1 f1 ok wb2 f2,
  buffer_writes wb f ps = (oks, wb1, f1) ->
  Flint__BufferFlush wb1 f1 = (ok, wb2, f2) ->
  Forall (fun b => b = true) oks /\ ok = true /\
  f_data f2 = f_data f ++ concat ps /\ wb_head wb2 = 0.
Proof.
  intros Hok H0 E Hs Hps oks wb1 f1 ok wb2 f2 Hw Hf.
  destruct (buffer_writes_sink_ok ps wb f Hok E Hs Hps) as [Hall Hs1].
  rewrite Hw in Hall, Hs1. cbn in Hall, Hs1.
  destruct (buffer_writes_true ps _ _ _ _ _ Hok E Hps Hw Hall) as (Hok1 & E1 & Hd).
  destruct (BufferFlush_sink_ok wb1 f1 Hok1 Hs1) as [Et _].
  rewrite Hf in Et. cbn in Et. subst ok.
  destruct (BufferFlush_true _ _ _ _ Hok1 E1 Hf) as (_ & Hz & _ & _ & _ & Hd2 & _).
  split_and!; auto. rewrite Hd2, Hd. unfold held at 1. rewrite H0. reflexivity.
Qed.

Lemma BufferFlush_script_nil wb f :
  f_script f = [] -> f_script (Flint__BufferFlush wb f).2 = [].
Proof.
  intros Hs. unfold Flint__BufferFlush. destruct (wb_head wb =? 0); [exact Hs|].
  unfold fwrite, next_io. rewrite Hs.
  destruct (held wb) as [|b p]; cbn; [exact Hs|exact Hs].
Qed.

(** C2.  On an open context whose sink grants every request, [FlintFlush]
    returns false, whatever the buffer: the test of line 246 takes the 0 that
    [fflush] returns on success for a failure.  So it does with no buffer at
    all, where there is nothing to write and the context comes back as it
    was. *)
Theorem FlintFlush_false_when_all_succeeds path data pos eof err tu j wb :
  let c := mkContext (Some (mkFILE path data pos eof err [])) tu j in
  (FlintFlush (Some c) wb).1.1 = false /\
  FlintFlush (Some c) None = (false, Some c, None).
Proof.
  cbn zeta. split; [|reflexivity].
  unfold FlintFlush. cbn [file].
  set (f := mkFILE path data pos eof err []).
  pose proof (BufferFlush_script_nil (wb_or_zero wb) f eq_refl) as Hs.
  destruct (Flint__BufferFlush (wb_or_zero wb) f) as [[ok b1] f1]. cbn in Hs.
  unfold fflush, next_io. rewrite Hs. cbn. by destruct ok.
Qed.

(** What [FlintFlush] returns on an open context: true exactly when the
    buffer was flushed and [fflush] then failed. *)
Lemma FlintFlush_true_iff c f wb :
  file c = Some f ->
  (FlintFlush (Some c) wb).1.1 = true <->
  (Flint__BufferFlush (wb_or_zero wb) f).1.1 = true /\
  (fflush (Flint__BufferFlush (wb_or_zero wb) f).2).1 <> 0.
Proof.
  intros Hf. unfold FlintFlush. rewrite Hf.
  destruct (Flint__BufferFlush (wb_or_zero wb) f) as [[ok b1] f1]. cbn [fst snd].
  destruct (fflush f1) as [r f2]. cbn [fst snd].
  destruct ok, (r =? 0) eqn:Er; cbn; split; try (intros [? ?]); try discriminate; try lia; auto.
Qed.

(** C10.  [FlintFlush] without a context, or with a context that has no
    sink, sets the cursor of the buffer to 0 and touches nothing else; it
    returns true without a context (so [FlintBufferInit] returns true) and
    false with a context that has no sink. *)
Theorem FlintFlush_without_sink wb tu j :
  FlintFlush None (Some wb) = (true, None, Some (set_head wb 0)) /\
  FlintBufferInit (Some wb) = (true, None, Some (set_head wb 0)) /\
  FlintBufferInit None = (true, None, None) /\
  FlintFlush (Some (mkContext None tu j)) (Some wb)
    = (false, Some (mkContext None tu j), Some (set_head wb 0)) /\
  wb_head (set_head wb 0) = 0 /\
  wb_length (set_head wb 0) = wb_length wb /\
  wb_data (set_head wb 0) = wb_data wb.
Proof. by split_and!. Qed.

(** C9.  [FlintQuit] leaves the context all zero, and [FlintQuit] on the
    context it left changes neither the context nor the world. *)
Theorem FlintQuit_idempotent c w :
  (FlintQuit (Some c) w).1 = Some ctx_zero /\
  FlintQuit (FlintQuit (Some c) w).1 (FlintQuit (Some c) w).2 = FlintQuit (Some c) w /\
  (forall w', FlintQuit (Some ctx_zero) w' = (Some ctx_zero, w')) /\
  (forall w', FlintQuit None w' = (None, w')).
Proof.
  split_and!; reflexivity.
Qed.

(** C8.  Begin refuses a call made without a context, without a sink, on a
    sink at end-of-file or in error, without a name or with
    [name_len <= 0]: it returns false, and the context (with its sink) and
    the buffer are as they were. *)
Theorem begin_refuses_invalid ev0 ctx wb when name name_len tid pid :
  begin_invalid ctx name name_len ->
  FlintTraceBeginLenTidPid ev0 ctx wb when name name_len tid pid
  = Some (false, ctx, wb).
Proof.
  unfold FlintTraceBeginLenTidPid.
  intros [-> | [(c & -> & Hf) | [(c & f & -> & Hf & He) | [-> | Hn]]]].
  - reflexivity.
  - rewrite Hf. by destruct name.
  - rewrite Hf. destruct name; [|reflexivity].
    destruct He as [-> | He]; [reflexivity|]. rewrite He. by destruct (feof f).
  - by destruct ctx.
  - destruct ctx as [c|]; [|reflexivity]. destruct name; [|reflexivity].
    destruct (file c) as [f|]; [|reflexivity].
    destruct (feof f); [reflexivity|]. destruct (ferror f); [reflexivity|].
    apply Z.leb_le in Hn. by rewrite Hn.
Qed.

(** C4.  In JSON mode the object Begin writes does not depend on the bytes
    of the caller's name: the name it prints is read from the local [ev],
    which the JSON branch never fills.  At the name ["A"], over a stack that
    holds Z, the call returns true and the object it appends names Z. *)
Theorem json_begin_name_from_stack path data tu wb when tid pid :
  (forall ev0 fo nm1 nm2 name_len,
     FlintTraceBeginLenTidPid ev0 (Some (mkContext fo tu 1)) wb when
                              (Some nm1) name_len tid pid
     = FlintTraceBeginLenTidPid ev0 (Some (mkContext fo tu 1)) wb when
                                (Some nm2) name_len tid pid) /\
  let f := mkFILE path data (length data) false false [] in
  FlintTraceBeginLenTidPid ev0_Z (Some (mkContext (Some f) tu 1)) wb when
                           (Some [Byte.x41]) 1 tid pid
  = Some (true,
          Some (mkContext
                  (Some (stream_put f (json_begin_text [Byte.x5a] pid tid (fmul when tu))))
                  tu 1),
          wb).
Proof.
  split; [reflexivity|].
  cbn zeta. unfold FlintTraceBeginLenTidPid. cbn [file feof ferror f_eof f_err is_json].
  change (negb (1 =? 0)) with true. cbv iota.
  change (1 <=? 0) with false. change (1 >? 255) with false. cbv iota.
  cbn [ev_name_length ev_name_bytes ev_pid ev_tid ev_when timestamp_unit ev0_Z].
  change (printf_prec_s (Z.to_nat (1 mod 256)) (replicate 255 Byte.x5a)) with [Byte.x5a].
  unfold fprintf, next_io. cbn [f_script f_path f_data f_pos f_eof f_err].
  set (txt := json_begin_text _ _ _ _).
  assert (Hl : (Z.of_nat (length txt) <=? 0) = false).
  { apply Z.leb_gt. unfold txt, json_begin_text. rewrite length_app. cbn. lia. }
  rewrite Hl. reflexivity.
Qed.

(** Begin in binary mode, once its checks have passed: the record goes to
    [Flint__BufferWrite], whose verdict the call returns. *)
Lemma begin_binary_eq ev0 c f wb when nm name_len tid pid :
  file c = Some f -> is_json c = 0 -> feof f = false -> ferror f = false ->
  0 < name_len -> (Z.to_nat (Z.min name_len 255) <= length nm)%nat ->
  FlintTraceBeginLenTidPid ev0 (Some c) wb when (Some nm) name_len tid pid =
  let '(ok, b1, f1) :=
    Flint__BufferWrite (wb_or_zero wb) f
      (record_layout (event_of_call (CallBegin ev0 when (Some nm) name_len tid pid))) in
  Some (ok, Some (set_file c f1), wb_back wb b1).
Proof.
  intros Hf Hj He Hx Hp Hn. unfold FlintTraceBeginLenTidPid.
  rewrite Hf, Hj, He, Hx.
  assert (Hle : (name_len <=? 0) = false) by (apply Z.leb_gt; lia). rewrite Hle.
  destruct (clamp_name_len name_len Hp) as (HL & Hm & Hr).
  set (L := if name_len >? 255 then 255 else name_len) in *.
  change (0 =? 0) with true. cbn [negb]. cbv iota.
  cbn [ev_type ev_pid ev_tid ev_when ev_name_length ev_name_bytes].
  rewrite Hm. rewrite <- HL in Hn.
  assert (El : (length nm <? Z.to_nat L)%nat = false) by (apply Nat.ltb_ge; lia).
  rewrite El, begin_payload by assumption.
  cbn [event_of_call default]. rewrite <- HL.
  destruct (Flint__BufferWrite _ f _) as [[ok b1] f1]. by destruct ok.
Qed.

(** C7, as the code has it.  In binary mode, on a sink that is neither at
    end-of-file nor in error and grants its requests, a Begin call with a
    name of more than 255 bytes returns true, and what it appends (to the
    buffer or to the sink) is one record whose length byte is 255, followed
    by exactly the first 255 bytes of the name. *)
Theorem begin_truncates_long_name ev0 c f wb when nm name_len tid pid :
  file c = Some f -> is_json c = 0 -> feof f = false -> ferror f = false ->
  at_end f -> sink_ok f -> wb_ok (wb_or_zero wb) ->
  0 <= pid < u32_mod -> 0 <= tid < u32_mod -> 0 <= when < u64_mod ->
  255 < name_len -> (255 <= length nm)%nat ->
  exists f' wb',
    FlintTraceBeginLenTidPid ev0 (Some c) wb when (Some nm) name_len tid pid
      = Some (true, Some (set_file c f'), wb') /\
    f_data f' ++ held (wb_or_zero wb') =
      f_data f ++ held (wb_or_zero wb) ++
      ([byte_of_Z FlintEventType_Begin] ++ host_bytes big_endian 4 pid ++
       host_bytes big_endian 4 tid ++ host_bytes big_endian 8 when ++
       [byte_of_Z 255] ++ take 255 nm) /\
    length (take 255 nm) = 255%nat /\
    decode_record
      ([byte_of_Z FlintEventType_Begin] ++ host_bytes big_endian 4 pid ++
       host_bytes big_endian 4 tid ++ host_bytes big_endian 8 when ++
       [byte_of_Z 255] ++ take 255 nm)
    = Some (mkEvent FlintEventType_Begin pid tid when (take 255 nm), []).
Proof.
  intros Hf Hj He Hx E Hs Hok Hp Ht Hw Hl Hn.
  assert (Hmin : Z.min name_len 255 = 255) by lia.
  pose proof (begin_binary_eq ev0 c f wb when nm name_len tid pid Hf Hj He Hx) as Heq.
  rewrite Hmin in Heq. specialize (Heq ltac:(lia) ltac:(lia)).
  set (call := CallBegin ev0 when (Some nm) name_len tid pid) in *.
  assert (Hlen : length (take 255 nm) = 255%nat) by (rewrite length_take; lia).
  assert (Hlay : record_layout (event_of_call call) =
            [byte_of_Z FlintEventType_Begin] ++ host_bytes big_endian 4 pid ++
            host_bytes big_endian 4 tid ++ host_bytes big_endian 8 when ++
            [byte_of_Z 255] ++ take 255 nm).
  { unfold call, record_layout. cbn [event_of_call default e_tag e_pid e_tid e_ts e_name].
    rewrite Hmin, Z.eqb_refl. change (Z.to_nat 255) with 255%nat. by rewrite Hlen. }
  assert (Hsz : object_size (record_layout (event_of_call call))).
  { rewrite Hlay. unfold object_size. rewrite !length_app, !length_host_bytes, Hlen.
    cbn. lia. }
  destruct (BufferWrite_sink_ok (wb_or_zero wb) f _ Hok Hs Hsz) as [Hok1 _].
  destruct (Flint__BufferWrite (wb_or_zero wb) f (record_layout (event_of_call call)))
    as [[ok b1] f1] eqn:Ew.
  cbn in Hok1. subst ok.
  exists f1, (wb_back wb b1). split; [exact Heq|].
  destruct (BufferWrite_true _ _ _ _ _ Hok E Hsz Ew) as (Hokb & Hlenb & _ & Hd & _ & _).
  destruct (held_wb_back wb b1 Hokb Hlenb) as [_ Hh].
  rewrite Hh, Hd, Hlay. split_and!; [reflexivity | exact Hlen |].
  pose proof (decode_record_layout (event_of_call call) []) as Hdec.
  rewrite app_nil_r, Hlay in Hdec.
  unfold call in Hdec. cbn [event_of_call default] in Hdec.
  rewrite Hmin in Hdec. change (Z.to_nat 255) with 255%nat in Hdec.
  apply Hdec. unfold event_ok. cbn. split_and!; lia.
Qed.

(** C3.  [FlintInitJson] directly followed by [FlintQuit], every request
    granted: the two bytes [FlintQuit] steps back over are the opening
    bracket and the line end of the prologue, so the file is
    the prologue without its bracket followed by the epilogue; it holds no
    opening bracket at all. *)
Theorem json_no_events_file reserved0 filename tu fs0 :
  let r := scenario_json_no_events reserved0 filename tu (mkWorld fs0 []) in
  file r.1 = Some (mkFILE filename json_prologue 17 false false []) /\
  fs r.2 !! filename =
    Some (lit "{" ++ [dq] ++ lit "traceEvents" ++ [dq] ++ lit ":" ++ json_epilogue) /\
  existsb (Byte.eqb Byte.x5b)
    (lit "{" ++ [dq] ++ lit "traceEvents" ++ [dq] ++ lit ":" ++ json_epilogue) = false.
Proof.
  cbn zeta. split_and!; [reflexivity | | reflexivity].
  apply lookup_insert_eq.
Qed.

(** * Further properties *)

(** ** Streams: what every request preserves *)

Lemma follows_refl f : follows f f.
Proof. by split. Qed.

Lemma follows_trans f g h : follows f g -> follows g h -> follows f h.
Proof. intros [P1 S1] [P2 S2]. split; [congruence | auto]. Qed.

Lemma next_io_follows f : follows f (next_io f).2.
Proof.
  unfold follows, next_io, sink_ok. destruct (f_script f) as [|b s] eqn:E; cbn.
  - rewrite E. auto.
  - split; [reflexivity|]. intros H. by inversion H.
Qed.

Lemma fwrite_follows p f : follows f (fwrite p f).2.
Proof.
  unfold fwrite. destruct p as [|b p]; [apply follows_refl|].
  pose proof (next_io_follows f) as H. destruct (next_io f) as [ok f1].
  destruct ok; exact H.
Qed.

Lemma fprintf_follows f text : follows f (fprintf f text).2.
Proof.
  unfold fprintf. pose proof (next_io_follows f) as H.
  destruct (next_io f) as [ok f1]. destruct ok; exact H.
Qed.

Lemma fflush_follows f : follows f (fflush f).2.
Proof.
  unfold fflush. pose proof (next_io_follows f) as H.
  destruct (next_io f) as [ok f1]. destruct ok; exact H.
Qed.

Lemma BufferFlush_follows wb f : follows f (Flint__BufferFlush wb f).2.
Proof.
  unfold Flint__BufferFlush. destruct (wb_head wb =? 0); [apply follows_refl|].
  pose proof (fwrite_follows (held wb) f) as H.
  destruct (fwrite (held wb) f) as [r f1]. by destruct (negb (r =? 1)).
Qed.

Lemma BufferWrite_follows wb f p : follows f (Flint__BufferWrite wb f p).2.
Proof.
  unfold Flint__BufferWrite.
  assert (H1 : follows f
    (if size_add (wb_head wb) (Z.of_nat (length p)) >? wb_length wb
     then Flint__BufferFlush wb f else (true, wb, f)).2).
  { destruct (_ >? _); [apply BufferFlush_follows | apply follows_refl]. }
  destruct (if _ >? _ then _ else _) as [[flushed wb1] f1]. cbn in H1.
  destruct flushed; cbn [negb]; [|exact H1].
  destruct (_ >? _); [|exact H1].
  pose proof (fwrite_follows p f1) as H2. destruct (fwrite p f1) as [r f2].
  cbn in *. by eapply follows_trans.
Qed.

(** A failed [fwrite] of a payload transfers nothing and sets the error
    indicator. *)
Lemma fwrite_failed p f r f' :
  fwrite p f = (r, f') -> p <> [] -> r <> 1 ->
  r = 0 /\ f_data f' = f_data f /\ f_pos f' = f_pos f /\ f_err f' = true.
Proof.
  unfold fwrite. intros H Hp Hr. destruct p as [|b p]; [done|].
  pose proof (next_io_data f) as (Hd & Hq & _).
  destruct (next_io f) as [ok f1]. cbn in Hd, Hq.
  destruct ok; inversion H; subst; [lia|]. cbn. auto.
Qed.

(** ** The write buffer: what a single call keeps and does *)

Lemma held_nonempty wb : wb_ok wb -> wb_head wb <> 0 -> held wb <> [].
Proof.
  intros Hok Hh Hn. pose proof (length_held wb Hok) as Hl.
  rewrite Hn in Hl. cbn in Hl. lia.
Qed.

Lemma BufferFlush_buffer wb f :
  wb_ok wb ->
  wb_ok (Flint__BufferFlush wb f).1.2 /\
  wb_length (Flint__BufferFlush wb f).1.2 = wb_length wb /\
  wb_data (Flint__BufferFlush wb f).1.2 = wb_data wb.
Proof.
  intros Hok. unfold Flint__BufferFlush. destruct (wb_head wb =? 0); [auto|].
  destruct (fwrite (held wb) f) as [r f1]. destruct (negb (r =? 1)); cbn; [auto|].
  destruct Hok as (? & ? & ?). unfold wb_ok. cbn. split_and!; auto; lia.
Qed.

(** X2.  Whatever [Flint__BufferWrite] returns, the buffer stays sound: the
    cursor stays within the capacity, and the capacity and the size of the
    storage do not change. *)
Theorem BufferWrite_keeps_buffer_sound wb f p :
  wb_ok wb -> object_size p ->
  wb_ok (Flint__BufferWrite wb f p).1.2 /\
  wb_length (Flint__BufferWrite wb f p).1.2 = wb_length wb /\
  length (wb_data (Flint__BufferWrite wb f p).1.2) = length (wb_data wb).
Proof.
  intros Hok Hp. unfold Flint__BufferWrite. unfold object_size in Hp.
  pose proof Hok as (Hh & Hl & Hd).
  rewrite size_add_small by lia.
  set (n := Z.of_nat (length p)) in *.
  assert (Hstep : forall wb1 f1, wb_ok wb1 ->
    (n <= wb_length wb1 -> wb_head wb1 + n <= wb_length wb1) ->
    let r := if n >? wb_length wb1
             then let '(r, f2) := fwrite p f1 in (negb (r =? 0), wb1, f2)
             else (true, mkWB (wb_length wb1) (u32_add (wb_head wb1) n)
                           (memcpy_at (wb_data wb1) (Z.to_nat (wb_head wb1)) p), f1) in
    wb_ok r.1.2 /\ wb_length r.1.2 = wb_length wb1 /\
    length (wb_data r.1.2) = length (wb_data wb1)).
  { intros wb1 f1 Hok1 Hfit. destruct (n >? wb_length wb1) eqn:Egt.
    - destruct (fwrite p f1) as [r f2]. cbn. auto.
    - pose proof Hok1 as (Hh1 & Hl1 & Hd1). specialize (Hfit ltac:(lia)).
      destruct (memcpy_at_spec (wb_data wb1) (Z.to_nat (wb_head wb1)) p) as [_ Hlen];
        [unfold n in *; lia|].
      cbn. unfold wb_ok, u32_add. cbn. rewrite Z.mod_small by lia.
      split_and!; auto; lia. }
  destruct (wb_head wb + n >? wb_length wb) eqn:Egt.
  - destruct (BufferFlush_buffer wb f Hok) as (Hok1 & Hlen1 & Hdat1).
    destruct (Flint__BufferFlush wb f) as [[ok wb1] f1] eqn:Ef. cbn in Hok1, Hlen1, Hdat1.
    destruct ok; cbn [negb].
    + assert (Hz : wb_head wb1 = 0).
      { unfold Flint__BufferFlush in Ef. destruct (wb_head wb =? 0) eqn:E0.
        - inversion Ef; subst. lia.
        - destruct (fwrite (held wb) f) as [r f0]. destruct (negb (r =? 1)); inversion Ef.
          reflexivity. }
      destruct (Hstep wb1 f1 Hok1) as (A & B & C); [lia|].
      rewrite <- Hlen1, <- Hdat1. split_and!; auto.
    + cbn. rewrite Hdat1. auto.
  - cbn [negb]. apply Hstep; [assumption | lia].
Qed.

(** X3.  A payload that fits behind the cursor is only copied: the call
    returns true without any request to the stream, which is left exactly
    as it was, and the buffer holds what it held followed by the payload. *)
Theorem BufferWrite_fits_no_io wb f p :
  wb_ok wb -> wb_head wb + Z.of_nat (length p) <= wb_length wb ->
  exists wb',
    Flint__BufferWrite wb f p = (true, wb', f) /\
    held wb' = held wb ++ p /\
    wb_head wb' = wb_head wb + Z.of_nat (length p).
Proof.
  intros Hok Hfit. pose proof Hok as (Hh & Hl & Hd).
  unfold Flint__BufferWrite.
  rewrite size_add_small by (unfold u32_mod in *; lia).
  replace (wb_head wb + Z.of_nat (length p) >? wb_length wb) with false by lia.
  cbn [negb].
  replace (Z.of_nat (length p) >? wb_length wb) with false by lia.
  eexists. split; [reflexivity|].
  unfold held, u32_add. cbn. rewrite Z.mod_small by lia.
  destruct (memcpy_at_spec (wb_data wb) (Z.to_nat (wb_head wb)) p) as [Ht _]; [lia|].
  split; [|reflexivity].
  replace (Z.to_nat (wb_head wb + Z.of_nat (length p)))
    with (Z.to_nat (wb_head wb) + length p)%nat by lia.
  exact Ht.
Qed.

(** X4.  An empty payload is accepted and changes nothing: neither the
    buffer nor the stream. *)
Theorem BufferWrite_empty_payload wb f :
  wb_ok wb -> Flint__BufferWrite wb f [] = (true, wb, f).
Proof.
  intros (Hh & Hl & Hd). unfold Flint__BufferWrite. cbn [length].
  change (Z.of_nat 0) with 0.
  rewrite size_add_small by (unfold u32_mod in *; lia).
  rewrite Z.add_0_r.
  assert (E1 : (wb_head wb >? wb_length wb) = false) by lia.
  assert (E2 : (0 >? wb_length wb) = false) by lia.
  rewrite E1. cbn [negb]. rewrite E2.
  unfold u32_add, memcpy_at. rewrite Z.add_0_r, Z.mod_small by lia.
  cbn [app length]. rewrite Nat.add_0_r, take_drop.
  by destruct wb.
Qed.

(** X5.  A payload larger than the capacity never enters the buffer: on a
    stream that grants its requests the call returns true, the bytes held
    go to the sink first and the payload right behind them, and the buffer
    is left empty with its storage untouched. *)
Theorem BufferWrite_bypass wb f p :
  wb_ok wb -> at_end f -> sink_ok f -> object_size p ->
  wb_length wb < Z.of_nat (length p) ->
  exists wb' f',
    Flint__BufferWrite wb f p = (true, wb', f') /\
    f_data f' = f_data f ++ held wb ++ p /\
    wb_head wb' = 0 /\ wb_data wb' = wb_data wb /\ wb_length wb' = wb_length wb.
Proof.
  intros Hok E Hs Hp Hbig.
  destruct (BufferWrite_sink_ok wb f p Hok Hs Hp) as [Htrue _].
  destruct (Flint__BufferWrite wb f p) as [[ok wb'] f'] eqn:Ew. cbn in Htrue. subst ok.
  destruct (BufferWrite_true _ _ _ _ _ Hok E Hp Ew) as (Hok' & Hlen & _ & Hd & _ & _).
  exists wb', f'. split; [reflexivity|].
  pose proof Hok as (Hh & Hl & Hdl). unfold object_size in Hp.
  unfold Flint__BufferWrite in Ew. rewrite size_add_small in Ew by lia.
  replace (wb_head wb + Z.of_nat (length p) >? wb_length wb) with true in Ew by lia.
  destruct (BufferFlush_buffer wb f Hok) as (_ & Hlen1 & Hdat1).
  destruct (Flint__BufferFlush wb f) as [[ok wb1] f1] eqn:Ef. cbn in Hlen1, Hdat1.
  destruct ok; cbn [negb] in Ew; [|discriminate].
  replace (Z.of_nat (length p) >? wb_length wb1) with true in Ew by lia.
  destruct (fwrite p f1) as [r f2]. inversion Ew; subst.
  destruct (BufferFlush_true _ _ _ _ Hok E Ef) as (_ & Hz & _).
  split_and!; auto.
  rewrite <- Hd. unfold held at 1. rewrite Hz. cbn. by rewrite app_nil_r.
Qed.

(** X6.  When [Flint__BufferWrite] returns false the payload is lost and
    nothing else: what the sink holds followed by what the buffer holds is
    as before the call, the buffer is still sound, and the error indicator
    of the stream is set. *)
Theorem BufferWrite_failure_loses_only_payload wb f p wb' f' :
  wb_ok wb -> at_end f -> object_size p ->
  Flint__BufferWrite wb f p = (false, wb', f') ->
  f_data f' ++ held wb' = f_data f ++ held wb /\
  wb_ok wb' /\ ferror f' = true.
Proof.
  intros Hok E Hp H. pose proof Hok as (Hh & Hl & Hdl). unfold object_size in Hp.
  unfold Flint__BufferWrite in H. rewrite size_add_small in H by lia.
  destruct (wb_head wb + Z.of_nat (length p) >? wb_length wb) eqn:Egt.
  - destruct (Flint__BufferFlush wb f) as [[ok wb1] f1] eqn:Ef.
    destruct ok; cbn [negb] in H.
    + destruct (BufferFlush_true _ _ _ _ Hok E Ef)
        as (Hok1 & Hz & Hlen & _ & E1 & Hd & _).
      destruct (Z.of_nat (length p) >? wb_length wb1) eqn:Ebig; [|discriminate].
      destruct (fwrite p f1) as [r f2] eqn:Ew.
      destruct (r =? 0) eqn:Er; cbn in H; [|discriminate].
      inversion H; subst.
      apply Z.gtb_lt in Ebig. destruct Hok1 as (Hh1 & _ & _).
      assert (Hne : p <> []) by (intros ->; cbn in Ebig; lia).
      destruct (fwrite_failed _ _ _ _ Ew Hne) as (_ & Hd2 & _ & Hx); [lia|].
      split_and!; auto.
      * assert (Hnil : held wb' = []) by (unfold held; by rewrite Hz).
        by rewrite Hd2, Hd, Hnil, app_nil_r.
      * destruct (BufferFlush_buffer wb f Hok) as (Hk & _). by rewrite Ef in Hk.
    + inversion H; subst. unfold Flint__BufferFlush in Ef.
      destruct (wb_head wb =? 0) eqn:E0; [discriminate|].
      destruct (fwrite (held wb) f) as [r f1] eqn:Ew.
      destruct (r =? 1) eqn:Er; cbn in Ef; [discriminate|].
      inversion Ef; subst.
      destruct (fwrite_failed _ _ _ _ Ew) as (_ & Hd2 & _ & Hx);
        [apply held_nonempty; [assumption|lia] | lia |].
      split_and!; auto. by rewrite Hd2.
  - cbn [negb] in H.
    destruct (Z.of_nat (length p) >? wb_length wb) eqn:Eb; [lia | discriminate].
Qed.

(** ** [FlintFlush]: what it does on an open context *)

Lemma fflush_data f :
  f_data (fflush f).2 = f_data f /\ f_pos (fflush f).2 = f_pos f.
Proof.
  unfold fflush. pose proof (next_io_data f) as (Hd & Hp & _).
  destruct (next_io f) as [ok f1]. destruct ok; cbn in *; auto.
Qed.

Lemma FlintFlush_effect c f wb :
  file c = Some f -> wb_ok (wb_or_zero wb) -> at_end f -> sink_ok f ->
  exists b' f',
    FlintFlush (Some c) wb = (false, Some (set_file c f'), wb_back wb b') /\
    f_data f' = f_data f ++ held (wb_or_zero wb) /\
    wb_head b' = 0 /\ wb_data b' = wb_data (wb_or_zero wb) /\
    wb_length b' = wb_length (wb_or_zero wb) /\
    at_end f' /\ follows f f'.
Proof.
  intros Hf Hok E Hs. unfold FlintFlush. rewrite Hf.
  destruct (BufferFlush_sink_ok _ f Hok Hs) as [Ht Hs1].
  pose proof (BufferFlush_follows (wb_or_zero wb) f) as Hfo.
  destruct (Flint__BufferFlush (wb_or_zero wb) f) as [[ok b1] f1] eqn:Eb.
  cbn in Ht, Hs1, Hfo. subst ok.
  destruct (BufferFlush_true _ _ _ _ Hok E Eb) as (_ & Hz & Hlen & Hdat & E1 & Hd & _).
  pose proof (fflush_data f1) as (Hd2 & Hp2).
  pose proof (fflush_follows f1) as Hfo2.
  assert (Hr : (fflush f1).1 = 0).
  { unfold fflush. destruct (next_io_sink_ok f1 Hs1) as [Hn _].
    destruct (next_io f1) as [ok f1']. cbn in Hn. by subst ok. }
  destruct (fflush f1) as [r f2]. cbn in Hd2, Hp2, Hfo2, Hr. subst r.
  exists b1, f2. cbn. split_and!; auto.
  - congruence.
  - unfold at_end in *. congruence.
  - by eapply follows_trans.
Qed.

(** X7.  On an open context whose sink grants every request, [FlintFlush]
    does its work although it returns false: the bytes the buffer held are
    appended to the sink, and the buffer comes back empty with its storage
    and capacity as they were. *)
Theorem FlintFlush_flushes_despite_false c f b :
  file c = Some f -> wb_ok b -> at_end f -> sink_ok f ->
  exists b' f',
    FlintFlush (Some c) (Some b) = (false, Some (set_file c f'), Some b') /\
    f_data f' = f_data f ++ held b /\
    wb_head b' = 0 /\ wb_data b' = wb_data b /\ wb_length b' = wb_length b.
Proof.
  intros Hf Hok E Hs.
  destruct (FlintFlush_effect c f (Some b) Hf Hok E Hs)
    as (b' & f' & H1 & H2 & H3 & H4 & H5 & _).
  exists b', f'. auto.
Qed.

(** ** [Flint__Init]: the two kinds of context it returns *)

Lemma fprintf_ok f text r f' :
  at_end f -> fprintf f text = (r, f') -> (r <=? 0) = false ->
  f_data f' = f_data f ++ text /\ at_end f' /\
  f_err f' = f_err f /\ f_eof f' = f_eof f.
Proof.
  intros E H Hr. unfold fprintf in H.
  pose proof (next_io_data f) as (Hd & Hp & He & Hx).
  destruct (next_io f) as [ok f1]. cbn in Hd, Hp, He, Hx.
  destruct ok; inversion H; subst; [|discriminate].
  assert (E1 : at_end f1) by (unfold at_end; congruence).
  destruct (stream_put_at_end f1 text E1) as [-> ?]. cbn. rewrite Hd. auto.
Qed.

Lemma fopen_follows filename w f w' :
  fopen filename w = (Some f, w') ->
  match fopen_script w with
  | Some s :: _ => f_script f = s
  | _ => f_script f = []
  end.
Proof.
  unfold fopen. destruct (fopen_script w) as [|[s|] rest]; intros H; by inversion H.
Qed.

Lemma Flint__Init_closed reserved0 filename tu j w :
  file (Flint__Init reserved0 filename tu j w).1 = None ->
  (Flint__Init reserved0 filename tu j w).1 = ctx_zero.
Proof.
  unfold Flint__Init. destruct filename as [fname|]; [|reflexivity].
  destruct (fopen fname w) as [[f0|] w1]; [|reflexivity].
  cbn [is_json]. destruct (negb (Z.b2z j =? 0)).
  - destruct (fprintf f0 json_prologue) as [r f1]. destruct (r <=? 0); [reflexivity|].
    destruct (fflush f1) as [r2 f2]. destruct (negb (r2 =? 0)); [reflexivity|].
    cbn. discriminate.
  - destruct (fwrite _ f0) as [r f1]. destruct (negb (r =? 1)); [reflexivity|].
    cbn. discriminate.
Qed.

Lemma Flint__Init_open reserved0 filename tu j w f :
  file (Flint__Init reserved0 filename tu j w).1 = Some f ->
  exists fname f0 w1,
    filename = Some fname /\ fopen fname w = (Some f0, w1) /\
    (Flint__Init reserved0 filename tu j w).2 = w1 /\
    (Flint__Init reserved0 filename tu j w).1 = mkContext (Some f) tu (Z.b2z j) /\
    at_end f /\ f_path f = fname /\ feof f = false /\ ferror f = false /\
    follows f0 f /\
    f_data f =
      (if j then json_prologue
       else header_bytes (mkHeader flint_magic 0 tu reserved0)).
Proof.
  unfold Flint__Init. destruct filename as [fname|]; [|discriminate].
  destruct (fopen fname w) as [[f0|] w1] eqn:Eo; [|discriminate].
  destruct (fopen_fresh _ _ _ _ Eo) as (Hpa & Hd & Hp & He & Hx).
  assert (E0 : at_end f0) by (unfold at_end; rewrite Hd, Hp; reflexivity).
  cbn [is_json]. destruct j; cbn [Z.b2z].
  - change (negb (1 =? 0)) with true. cbv iota.
    pose proof (fprintf_follows f0 json_prologue) as Hfo1.
    destruct (fprintf f0 json_prologue) as [r f1] eqn:Ep. cbn in Hfo1.
    destruct (r <=? 0) eqn:Er; [discriminate|].
    destruct (fprintf_ok _ _ _ _ E0 Ep Er) as (Hd1 & E1 & Hx1 & He1).
    pose proof (fflush_data f1) as (Hd2 & Hp2).
    pose proof (fflush_follows f1) as Hfo2.
    assert (Hflags : f_err (fflush f1).2 = f_err f1 \/ (fflush f1).1 <> 0).
    { unfold fflush. pose proof (next_io_data f1) as (_ & _ & _ & Hxx).
      destruct (next_io f1) as [ok f1']. destruct ok; cbn in *; [auto | right; lia]. }
    assert (Heof : f_eof (fflush f1).2 = f_eof f1).
    { unfold fflush. pose proof (next_io_data f1) as (_ & _ & Hee & _).
      destruct (next_io f1) as [ok f1']. destruct ok; cbn in *; auto. }
    destruct (fflush f1) as [r2 f2]. cbn in Hd2, Hp2, Hfo2, Hflags, Heof.
    destruct (r2 =? 0) eqn:Er2; cbn [negb]; [|discriminate].
    cbn. intros Hf. inversion Hf; subst f2. clear Hf.
    exists fname, f0, w1. unfold feof, ferror.
    destruct Hflags as [Hfl | Hfl]; [|lia].
    pose proof (follows_trans _ _ _ Hfo1 Hfo2) as Hfo.
    destruct Hfo1 as [P1 _]. destruct Hfo2 as [P2 _].
    split_and!; auto; try congruence.
    rewrite Hd2, Hd1, Hd. reflexivity.
  - change (negb (0 =? 0)) with false. cbv iota.
    change (Z.to_nat sizeof_FlintHeader) with 25%nat.
    rewrite take_ge by (rewrite length_header_bytes; lia).
    pose proof (fwrite_follows (header_bytes (mkHeader flint_magic 0 tu reserved0)) f0)
      as Hfo1.
    destruct (fwrite _ f0) as [r f1] eqn:Ew. cbn in Hfo1.
    destruct (r =? 1) eqn:Er; cbn [negb]; [|discriminate].
    cbn. intros Hf. inversion Hf; subst f1. clear Hf.
    destruct (fwrite_ok _ _ _ _ E0 Ew) as (_ & Hd1 & E1 & Hx1 & He1); [lia|].
    exists fname, f0, w1. unfold feof, ferror. destruct Hfo1 as [P1 S1].
    split_and!; auto; try congruence.
    + by split.
    + rewrite Hd1, Hd. reflexivity.
Qed.

(** X9.  [Flint__Init] never returns a half-made context: it is either all
    zero, or open on the file asked for, neither at end-of-file nor in
    error, in the mode and with the unit asked for, its stream holding
    exactly the preamble of the mode (the JSON prologue or the 25-byte
    header) and standing at its end. *)
Theorem Flint__Init_zero_or_open reserved0 filename tu j w :
  let c := (Flint__Init reserved0 filename tu j w).1 in
  c = ctx_zero \/
  exists f,
    c = mkContext (Some f) tu (Z.b2z j) /\ Some (f_path f) = filename /\
    at_end f /\ feof f = false /\ ferror f = false /\
    f_data f =
      (if j then json_prologue
       else header_bytes (mkHeader flint_magic 0 tu reserved0)) /\
    (j = false -> length (f_data f) = 25%nat).
Proof.
  cbn zeta. destruct (file (Flint__Init reserved0 filename tu j w).1) as [f|] eqn:Ef.
  - right. destruct (Flint__Init_open _ _ _ _ _ _ Ef)
      as (fname & f0 & w1 & -> & _ & _ & Hc & E & Hp & He & Hx & _ & Hd).
    exists f. split_and!; auto; [congruence|].
    intros ->. rewrite Hd. apply length_header_bytes.
  - left. by apply Flint__Init_closed.
Qed.

(** X10.  Without a file name, or when the file cannot be opened,
    [Flint__Init] returns the all-zero context and leaves every file as it
    was: nothing is created or truncated. *)
Theorem Flint__Init_refused_changes_nothing reserved0 filename tu j w :
  filename = None \/ (exists rest, fopen_script w = None :: rest) ->
  (Flint__Init reserved0 filename tu j w).1 = ctx_zero /\
  fs (Flint__Init reserved0 filename tu j w).2 = fs w.
Proof.
  unfold Flint__Init. intros [-> | [rest Hs]]; [by split|].
  destruct filename as [fname|]; [|by split].
  unfold fopen. rewrite Hs. by split.
Qed.

(** ** The event calls: what every call preserves *)

Lemma do_call_follows c f wb call ok ctx' wb' :
  file c = Some f -> do_call (Some c) wb call = Some (ok, ctx', wb') ->
  exists f',
    ctx' = Some (mkContext (Some f') (timestamp_unit c) (is_json c)) /\
    follows f f'.
Proof.
  intros Hf H.
  assert (Hsame : Some c = Some (mkContext (Some f) (timestamp_unit c) (is_json c))).
  { destruct c; cbn in *; by subst. }
  destruct call as [ev0 when name name_len tid pid | when tid pid]; cbn [do_call] in H.
  - unfold FlintTraceBeginLenTidPid in H. rewrite Hf in H.
    destruct name as [nm|];
      [|inversion H; subst; exists f; split_and!; auto using follows_refl].
    destruct (feof f); [inversion H; subst; exists f; split_and!; auto using follows_refl|].
    destruct (ferror f); [inversion H; subst; exists f; split_and!; auto using follows_refl|].
    destruct (name_len <=? 0);
      [inversion H; subst; exists f; split_and!; auto using follows_refl|].
    destruct (negb (is_json c =? 0)).
    + pose proof (fprintf_follows f
        (json_begin_text
           (printf_prec_s
              (Z.to_nat ((if name_len >? 255 then 255 else name_len) mod 256))
              (ev_name_bytes ev0))
           pid tid (fmul when (timestamp_unit c)))) as Hfo.
      cbn [ev_name_length ev_name_bytes ev_pid ev_tid ev_when] in H.
      destruct (fprintf f _) as [r f1]. cbn in Hfo.
      destruct (r <=? 0); inversion H; subst; exists f1; split_and!; auto.
    + destruct (length nm <? _)%nat; [discriminate|].
      match type of H with context [Flint__BufferWrite ?b f ?p] =>
        pose proof (BufferWrite_follows b f p) as Hfo;
        destruct (Flint__BufferWrite b f p) as [[ok1 b1] f1]
      end.
      cbn in Hfo. destruct ok1; inversion H; subst; exists f1; split_and!; auto.
  - unfold FlintTraceEndTidPid in H. rewrite Hf in H.
    destruct (feof f); [inversion H; subst; exists f; split_and!; auto using follows_refl|].
    destruct (ferror f); [inversion H; subst; exists f; split_and!; auto using follows_refl|].
    destruct (negb (is_json c =? 0)).
    + cbn [ee_pid ee_tid ee_when] in H.
      pose proof (fprintf_follows f
        (json_end_text pid tid (fmul when (timestamp_unit c)))) as Hfo.
      destruct (fprintf f _) as [r f1]. cbn in Hfo.
      destruct (r <=? 0); inversion H; subst; exists f1; split_and!; auto.
    + match type of H with context [Flint__BufferWrite ?b f ?p] =>
        pose proof (BufferWrite_follows b f p) as Hfo;
        destruct (Flint__BufferWrite b f p) as [[ok1 b1] f1]
      end.
      cbn in Hfo. destruct ok1; inversion H; subst; exists f1; split_and!; auto.
Qed.

Lemma run_calls_follows calls : forall c f wb oks ctx' wb',
  file c = Some f -> run_calls (Some c) wb calls = Some (oks, ctx', wb') ->
  exists f',
    ctx' = Some (mkContext (Some f') (timestamp_unit c) (is_json c)) /\ follows f f'.
Proof.
  induction calls as [|call calls IH]; intros c f wb oks ctx' wb' Hf H.
  - cbn in H. inversion H; subst. exists f. split; [|apply follows_refl].
    destruct c; cbn in *; by subst.
  - cbn [run_calls] in H.
    destruct (do_call (Some c) wb call) as [[[ok ctx1] wb1]|] eqn:Ed; [|discriminate].
    destruct (run_calls ctx1 wb1 calls) as [[[oks1 ctx2] wb2]|] eqn:Er; [|discriminate].
    inversion H; subst.
    destruct (do_call_follows _ _ _ _ _ _ _ Hf Ed) as (f1 & -> & Hfo1).
    destruct (IH (mkContext (Some f1) (timestamp_unit c) (is_json c)) f1 _ _ _ _
                eq_refl Er) as (f2 & -> & Hfo2).
    exists f2. split; [reflexivity|]. by eapply follows_trans.
Qed.


(** ** The event calls in JSON mode *)

(** A successful call in JSON mode appends the object of the call to the
    sink, and hands the buffer back as it was. *)
Lemma do_call_json c f wb call ctx' wb' :
  file c = Some f -> is_json c <> 0 -> at_end f ->
  do_call (Some c) wb call = Some (true, ctx', wb') ->
  exists f',
    ctx' = Some (mkContext (Some f') (timestamp_unit c) (is_json c)) /\
    at_end f' /\
    f_data f' = f_data f ++ json_text_of_call (timestamp_unit c) call /\
    wb' = wb.
Proof.
  intros Hf Hj E H. apply Z.eqb_neq in Hj.
  destruct call as [ev0 when name name_len tid pid | when tid pid]; cbn [do_call] in H.
  - unfold FlintTraceBeginLenTidPid in H. rewrite Hf, Hj in H.
    destruct name as [nm|]; [|discriminate].
    destruct (feof f); [discriminate|]. destruct (ferror f); [discriminate|].
    destruct (name_len <=? 0) eqn:Ep; [discriminate|]. apply Z.leb_gt in Ep.
    destruct (clamp_name_len name_len Ep) as (HL & Hm & Hr).
    cbn [negb] in H. cbv iota in H.
    cbn [ev_name_length ev_name_bytes ev_pid ev_tid ev_when] in H.
    rewrite Hm, HL in H.
    destruct (fprintf f _) as [r f1] eqn:Ew.
    destruct (r <=? 0) eqn:Er; [discriminate|]. inversion H; subst.
    destruct (fprintf_ok _ _ _ _ E Ew Er) as (Hd & E1 & _).
    exists f1. cbn [json_text_of_call]. auto.
  - unfold FlintTraceEndTidPid in H. rewrite Hf, Hj in H.
    destruct (feof f); [discriminate|]. destruct (ferror f); [discriminate|].
    cbn [negb] in H. cbv iota in H. cbn [ee_pid ee_tid ee_when] in H.
    destruct (fprintf f _) as [r f1] eqn:Ew.
    destruct (r <=? 0) eqn:Er; [discriminate|]. inversion H; subst.
    destruct (fprintf_ok _ _ _ _ E Ew Er) as (Hd & E1 & _).
    exists f1. cbn [json_text_of_call]. auto.
Qed.

Lemma run_calls_json calls : forall c f wb oks ctx' wb',
  file c = Some f -> is_json c <> 0 -> at_end f ->
  run_calls (Some c) wb calls = Some (oks, ctx', wb') ->
  Forall (fun b => b = true) oks ->
  exists f',
    ctx' = Some (mkContext (Some f') (timestamp_unit c) (is_json c)) /\
    at_end f' /\
    f_data f' = f_data f ++ concat (map (json_text_of_call (timestamp_unit c)) calls) /\
    wb' = wb.
Proof.
  induction calls as [|call calls IH]; intros c f wb oks ctx' wb' Hf Hj E H Hall.
  - cbn in H. inversion H; subst. exists f. cbn. rewrite app_nil_r.
    split_and!; auto. destruct c; cbn in *; by subst.
  - cbn [run_calls] in H.
    destruct (do_call (Some c) wb call) as [[[ok ctx1] wb1]|] eqn:Ed; [|discriminate].
    destruct (run_calls ctx1 wb1 calls) as [[[oks1 ctx2] wb2]|] eqn:Er; [|discriminate].
    inversion H; subst. inversion Hall as [|? ? -> Hall']; subst.
    destruct (do_call_json _ _ _ _ _ _ Hf Hj E Ed) as (f1 & -> & E1 & Hd1 & ->).
    destruct (IH (mkContext (Some f1) (timestamp_unit c) (is_json c)) f1 _ _ _ _
                eq_refl Hj E1 Er Hall') as (f2 & -> & E2 & Hd2 & ->).
    exists f2. split_and!; auto. cbn in Hd2. rewrite Hd2, Hd1. cbn [map concat].
    by rewrite app_assoc.
Qed.

(** X13.  In JSON mode a call never goes through the write buffer and
    never reads the name: whatever the buffer and however short the name
    object, the call returns, and it hands the buffer back as it was. *)
Theorem json_calls_leave_buffer c wb call :
  is_json c <> 0 ->
  exists ok ctx', do_call (Some c) wb call = Some (ok, ctx', wb).
Proof.
  intros Hj. apply Z.eqb_neq in Hj.
  destruct call as [ev0 when name name_len tid pid | when tid pid]; cbn [do_call].
  - unfold FlintTraceBeginLenTidPid. rewrite Hj. cbn [negb].
    destruct name; [|by eauto]. destruct (file c) as [f|]; [|by eauto].
    destruct (feof f); [by eauto|]. destruct (ferror f); [by eauto|].
    destruct (name_len <=? 0); [by eauto|].
    destruct (fprintf f _) as [r f1]. destruct (r <=? 0); by eauto.
  - unfold FlintTraceEndTidPid. rewrite Hj. cbn [negb].
    destruct (file c) as [f|]; [|by eauto].
    destruct (feof f); [by eauto|]. destruct (ferror f); [by eauto|].
    destruct (fprintf f _) as [r f1]. destruct (r <=? 0); by eauto.
Qed.

(** X20.  In JSON mode a successful End appends to the sink exactly the
    object with phase E, the pid, the tid and the timestamp multiplied by
    the unit of the context, closed by a comma and a line end. *)
Theorem json_end_appends_object c f wb when tid pid ctx' wb' :
  file c = Some f -> is_json c <> 0 -> at_end f ->
  FlintTraceEndTidPid (Some c) wb when tid pid = (true, ctx', wb') ->
  exists f',
    ctx' = Some (set_file c f') /\ wb' = wb /\
    f_data f' =
      f_data f ++
      lit "{" ++ [dq] ++ lit "ph" ++ [dq] ++ lit ":" ++ [dq] ++ lit "E" ++ [dq] ++
      lit "," ++ [dq] ++ lit "pid" ++ [dq] ++ lit ":" ++ printf_u pid ++
      lit "," ++ [dq] ++ lit "tid" ++ [dq] ++ lit ":" ++ printf_u tid ++
      lit "," ++ [dq] ++ lit "ts" ++ [dq] ++ lit ":" ++
      printf_f (fmul when (timestamp_unit c)) ++
      lit "}," ++ [nl].
Proof.
  intros Hf Hj E H.
  destruct (do_call_json c f wb (CallEnd when tid pid) ctx' wb' Hf Hj E)
    as (f' & -> & _ & Hd & ->); [cbn [do_call]; by rewrite H|].
  exists f'. split_and!; auto.
Qed.

(** ** Whole sessions *)

Lemma json_texts_concat_end tu calls :
  calls <> [] ->
  exists body, concat (map (json_text_of_call tu) calls) = body ++ [Byte.x2c; nl].
Proof.
  induction calls as [|call calls IH]; [done|]. intros _. cbn [map concat].
  destruct calls as [|call2 calls].
  - cbn. rewrite app_nil_r.
    destruct call as [ev0 when name name_len tid pid | when tid pid]; cbn.
    + apply (json_texts_end_in_comma _ pid tid _).
    + apply (json_texts_end_in_comma [] pid tid _).
  - destruct IH as [body Hb]; [done|]. exists (json_text_of_call tu call ++ body).
    rewrite Hb. by rewrite app_assoc.
Qed.

(** X12.  A JSON session with at least one event: after [FlintInitJson],
    a run of calls that all returned true, and [FlintQuit], the file holds
    the prologue, then the objects of the calls in call order, each closed
    by a comma and a line end except the last, whose comma and line end
    have given way to the epilogue; the context is all zero, and the
    buffer was never touched. *)
Theorem json_session_file reserved0 filename tu w0 c w1 f wb calls oks ctx1 wb1 :
  FlintInitJson reserved0 (Some filename) tu w0 = (c, w1) ->
  file c = Some f -> sink_ok f -> calls <> [] ->
  run_calls (Some c) wb calls = Some (oks, ctx1, wb1) ->
  Forall (fun b => b = true) oks ->
  exists body,
    concat (map (json_text_of_call tu) calls) = body ++ [Byte.x2c; nl] /\
    (FlintQuit ctx1 w1).1 = Some ctx_zero /\
    fs (FlintQuit ctx1 w1).2 !! filename = Some (json_prologue ++ body ++ json_epilogue) /\
    wb1 = wb.
Proof.
  intros Hi Hf Hs Hne Hr Hall.
  assert (Hf0 : file (Flint__Init reserved0 (Some filename) tu true w0).1 = Some f).
  { unfold FlintInitJson in Hi. by rewrite Hi. }
  destruct (Flint__Init_open _ _ _ _ _ _ Hf0)
    as (fname & f0 & w1' & Hn & _ & _ & Hc & E & Hp & _ & _ & _ & Hd).
  injection Hn as Hn'. rewrite <- Hn' in *. clear Hn'. unfold FlintInitJson in Hi. rewrite Hi in Hc. cbn in Hc.
  subst c. cbn [Z.b2z] in *.
  destruct (run_calls_json calls (mkContext (Some f) tu 1) f _ _ _ _ eq_refl
              ltac:(cbn; lia) E Hr Hall)
    as (f' & -> & E' & Hd' & ->).
  destruct (run_calls_follows calls (mkContext (Some f) tu 1) f _ _ _ _ eq_refl Hr)
    as (f'' & Heq & Hp' & Hs').
  inversion Heq; subst f''. cbn [timestamp_unit is_json] in *.
  destruct (json_texts_concat_end tu calls Hne) as [body Hb].
  exists body. split_and!; auto.
  rewrite <- Hp, <- Hp'.
  rewrite (FlintQuit_json_replaces_comma _ f' (json_prologue ++ body)); auto.
  rewrite Hd', Hd, Hb. by rewrite app_assoc.
Qed.

(** X11.  A binary session: after [FlintInit], a run of calls that all
    returned true (with no buffer, or with one that held nothing),
    [FlintFlush] and [FlintQuit], on a sink that grants its requests, the
    file holds the 25-byte header followed by one record per call in call
    order, nothing else, and the records read back as the events; the
    context is all zero. *)
Theorem binary_session_file reserved0 filename tu w0 c w1 f wb calls oks ctx1 wb1 :
  FlintInit reserved0 (Some filename) tu w0 = (c, w1) ->
  file c = Some f -> sink_ok f ->
  wb_ok (wb_or_zero wb) -> wb_head (wb_or_zero wb) = 0 ->
  Forall call_ok calls ->
  run_calls (Some c) wb calls = Some (oks, ctx1, wb1) ->
  Forall (fun b => b = true) oks ->
  exists ctx2 wb2,
    FlintFlush ctx1 wb1 = (false, ctx2, wb2) /\
    (FlintQuit ctx2 w1).1 = Some ctx_zero /\
    fs (FlintQuit ctx2 w1).2 !! filename =
      Some (header_bytes (mkHeader flint_magic 0 tu reserved0) ++
            concat (map record_layout (map event_of_call calls))) /\
    decode_records (concat (map record_layout (map event_of_call calls)))
      = Some (map event_of_call calls).
Proof.
  intros Hi Hf Hs Hok H0 Hc Hr Hall.
  assert (Hf0 : file (Flint__Init reserved0 (Some filename) tu false w0).1 = Some f).
  { unfold FlintInit in Hi. by rewrite Hi. }
  destruct (Flint__Init_open _ _ _ _ _ _ Hf0)
    as (fname & f0 & w1' & Hn & _ & _ & Hctx & E & Hp & _ & _ & _ & Hd).
  injection Hn as Hn'. rewrite <- Hn' in *. clear Hn'. unfold FlintInit in Hi. rewrite Hi in Hctx. cbn in Hctx.
  subst c. cbn [Z.b2z] in *.
  destruct (run_calls_binary calls (mkContext (Some f) tu 0) f _ _ _ _ eq_refl eq_refl
              Hok E Hc Hr Hall)
    as (c' & f' & -> & Hf' & Hok' & E' & Hd' & Hev).
  destruct (run_calls_follows calls (mkContext (Some f) tu 0) f _ _ _ _ eq_refl Hr)
    as (f'' & Heq & Hp' & Hs').
  inversion Heq; subst c'. cbn in Hf'. inversion Hf'; subst f''. clear Hf' Heq.
  cbn [timestamp_unit is_json] in *.
  set (c' := mkContext (Some f') tu 0) in *.
  destruct (FlintFlush_effect c' f' wb1 eq_refl Hok' E' (Hs' Hs))
    as (b2 & f2 & Hfl & Hd2 & _ & _ & _ & _ & Hp2 & _).
  exists (Some (set_file c' f2)), (wb_back wb1 b2).
  split_and!; [exact Hfl | reflexivity | | by apply decode_records_layout].
  unfold FlintQuit, FlintQuit_at, set_file, fclose. cbn.
  rewrite Hp2, Hp', Hp, lookup_insert_eq. f_equal.
  rewrite Hd2, Hd', Hd. unfold held. rewrite H0. reflexivity.
Qed.

(** ** The event calls: refusals *)

(** X1.  End refuses a call made without a context, without a sink, or on
    a sink at end-of-file or in error: it returns false, and the context
    (with its sink) and the buffer are as they were. *)
Theorem end_refuses_invalid ctx wb when tid pid :
  end_invalid ctx ->
  FlintTraceEndTidPid ctx wb when tid pid = (false, ctx, wb).
Proof.
  unfold FlintTraceEndTidPid.
  intros [-> | [(c & -> & Hf) | (c & f & -> & Hf & He)]].
  - reflexivity.
  - by rewrite Hf.
  - rewrite Hf. destruct He as [-> | He]; [reflexivity|]. rewrite He.
    by destruct (feof f).
Qed.

(** X18.  After [FlintQuit] the context refuses everything: Begin and End
    return false and change nothing, and [FlintFlush] returns false and
    only empties the buffer it is given. *)
Theorem after_quit_all_refused c w ev0 wb b when name name_len tid pid :
  let ctx' := (FlintQuit (Some c) w).1 in
  FlintTraceBeginLenTidPid ev0 ctx' wb when name name_len tid pid
    = Some (false, ctx', wb) /\
  FlintTraceEndTidPid ctx' wb when tid pid = (false, ctx', wb) /\
  FlintFlush ctx' (Some b) = (false, ctx', Some (set_head b 0)).
Proof.
  cbn zeta. split_and!; try reflexivity.
  unfold FlintTraceBeginLenTidPid. cbn. by destruct name.
Qed.




(** ** The event calls in binary mode: sizes, no buffer, C strings *)

Lemma do_call_binary_checked c f wb call ctx' wb' :
  file c = Some f -> is_json c = 0 ->
  do_call (Some c) wb call = Some (true, ctx', wb') ->
  length (record_layout (event_of_call call)) = record_size call /\
  (wb = None -> wb' = None).
Proof.
  intros Hf Hj H. destruct call as [ev0 when name name_len tid pid | when tid pid];
    cbn [do_call] in H.
  - unfold FlintTraceBeginLenTidPid in H. rewrite Hf, Hj in H.
    destruct name as [nm|]; [|discriminate].
    destruct (feof f); [discriminate|]. destruct (ferror f); [discriminate|].
    destruct (name_len <=? 0) eqn:Ep; [discriminate|]. apply Z.leb_gt in Ep.
    destruct (clamp_name_len name_len Ep) as (HL & Hm & Hr).
    change (0 =? 0) with true in H. cbn [negb] in H. cbv iota in H.
    rewrite Hm, HL in H.
    destruct (length nm <? _)%nat eqn:El; [discriminate|]. apply Nat.ltb_ge in El.
    destruct (Flint__BufferWrite _ f _) as [[ok b1] f1].
    destruct ok; cbn [negb] in H; [|discriminate]. inversion H; subst. split.
    + unfold record_layout. cbn [event_of_call e_tag e_pid e_tid e_ts e_name record_size].
      rewrite Z.eqb_refl, !length_app, !length_host_bytes. cbn [length].
      rewrite length_take. lia.
    + by intros ->.
  - unfold FlintTraceEndTidPid in H. rewrite Hf, Hj in H.
    destruct (feof f); [discriminate|]. destruct (ferror f); [discriminate|].
    change (0 =? 0) with true in H. cbn [negb] in H. cbv iota in H.
    destruct (Flint__BufferWrite _ f _) as [[ok b1] f1].
    destruct ok; cbn [negb] in H; [|discriminate]. inversion H; subst. split.
    + unfold record_layout. cbn [event_of_call e_tag e_pid e_tid e_ts e_name record_size].
      change (FlintEventType_End =? FlintEventType_Begin) with false.
      rewrite !length_app, !length_host_bytes. reflexivity.
    + by intros ->.
Qed.

(** X16.  Without a buffer every successful call in binary mode reaches the
    sink at once: when the call returns, the sink holds what it held
    followed by the record of the call, and nothing is pending. *)
Theorem unbuffered_call_reaches_sink c f call ctx' wb' :
  file c = Some f -> is_json c = 0 -> at_end f ->
  do_call (Some c) None call = Some (true, ctx', wb') ->
  exists c' f',
    ctx' = Some c' /\ file c' = Some f' /\ wb' = None /\
    f_data f' = f_data f ++ record_layout (event_of_call call).
Proof.
  intros Hf Hj E H.
  destruct (do_call_binary c f None call ctx' wb' Hf Hj wb_zero_ok E H)
    as (c' & f' & -> & Hf' & _ & _ & _ & Hd & _).
  destruct (do_call_binary_checked c f None call _ wb' Hf Hj H) as [_ Hn].
  rewrite (Hn eq_refl) in *. cbn in Hd. rewrite app_nil_r in Hd.
  exists c', f'. auto.
Qed.


Lemma strlen_cstring (s rest : list byte) :
  Forall (fun b => Z_of_byte b <> 0) s ->
  strlen (s ++ Byte.x00 :: rest) = Some (Z.of_nat (length s)).
Proof.
  induction s as [|b s IH]; intros Hs; [reflexivity|].
  inversion Hs as [|? ? Hb Hs']; subst. cbn [app strlen length].
  apply Z.eqb_neq in Hb. rewrite Hb, (IH Hs'). cbn. f_equal. lia.
Qed.

Lemma take_clamped_prefix (s rest : list byte) :
  take (Z.to_nat (Z.min (Z.of_nat (length s)) 255)) (s ++ rest) = take 255 s.
Proof.
  destruct (Nat.le_gt_cases (length s) 255) as [Hle | Hgt].
  - rewrite Z.min_l, Nat2Z.id by lia. rewrite take_app_length.
    symmetry. by apply take_ge.
  - rewrite Z.min_r by lia. change (Z.to_nat 255) with 255%nat.
    apply take_app_le. lia.
Qed.

(** X15.  The C-string form of Begin refuses a null name and the empty
    string before it looks at anything else: it returns false and changes
    nothing, whatever the context. *)
Theorem begin_cstring_refuses_empty ev0 ctx wb when name tid pid :
  name = None \/ (exists rest, name = Some (Byte.x00 :: rest)) ->
  FlintTraceBeginTidPid ev0 ctx wb when name tid pid = Some (false, ctx, wb).
Proof. intros [-> | [rest ->]]; reflexivity. Qed.

(** X14.  The C-string form of Begin records the characters before the
    first NUL, cut to 255, and nothing behind them: in binary mode a
    successful call appends the Begin record whose name is the first 255
    bytes of the string. *)
Theorem begin_cstring_records_prefix ev0 c f wb when s rest tid pid ctx' wb' :
  Forall (fun b => Z_of_byte b <> 0) s -> object_size s ->
  file c = Some f -> is_json c = 0 -> at_end f -> wb_ok (wb_or_zero wb) ->
  FlintTraceBeginTidPid ev0 (Some c) wb when (Some (s ++ Byte.x00 :: rest)) tid pid
    = Some (true, ctx', wb') ->
  exists c' f',
    ctx' = Some c' /\ file c' = Some f' /\
    f_data f' ++ held (wb_or_zero wb') =
      f_data f ++ held (wb_or_zero wb) ++
      record_layout (mkEvent FlintEventType_Begin pid tid when (take 255 s)).
Proof.
  intros Hs Hsz Hf Hj E Hok H. unfold FlintTraceBeginTidPid in H.
  rewrite (strlen_cstring s rest Hs) in H.
  destruct (Z.of_nat (length s) =? 0); [discriminate|].
  assert (Hcast : to_signed_long (Z.of_nat (length s)) = Z.of_nat (length s)).
  { unfold to_signed_long, object_size, u64_mod in *.
    rewrite Z.mod_small by lia. replace (_ <? _) with true by lia. reflexivity. }
  rewrite Hcast in H.
  destruct (do_call_binary c f wb
              (CallBegin ev0 when (Some (s ++ Byte.x00 :: rest))
                         (Z.of_nat (length s)) tid pid)
              ctx' wb' Hf Hj Hok E H)
    as (c' & f' & -> & Hf' & _ & _ & _ & Hd & _).
  exists c', f'. split_and!; auto.
  rewrite Hd. cbn [event_of_call]. by rewrite take_clamped_prefix.
Qed.

End Flint.

(** ** The scenario, and the properties at concrete inputs *)

(** C5, as the code has it.  The scenario, every request granted: both
    event calls return true, and the file is the 25-byte header, the 19-byte
    Begin record and the 17-byte End record, 61 bytes, with the magic value
    in the first eight. *)
Theorem scenario_t_bin_file big_endian fmul printf_f reserved0 ev0 fs0 :
  exists w bytes,
    scenario_t_bin big_endian fmul printf_f reserved0 ev0 (mkWorld fs0 []) = Some (true, true, w) /\
    fs w !! "t.bin"%string = Some bytes /\
    bytes =
      header_bytes big_endian (mkHeader flint_magic 0 double_1_0 reserved0) ++
      record_layout big_endian (mkEvent FlintEventType_Begin 0 0 double_1_0 [Byte.x41]) ++
      record_layout big_endian (mkEvent FlintEventType_End 0 0 double_2_0 []) /\
    length (header_bytes big_endian (mkHeader flint_magic 0 double_1_0 reserved0)) = 25%nat /\
    length (record_layout big_endian (mkEvent FlintEventType_Begin 0 0 double_1_0 [Byte.x41])) = 19%nat /\
    length (record_layout big_endian (mkEvent FlintEventType_End 0 0 double_2_0 [])) = 17%nat /\
    length bytes = 61%nat /\
    take 8 bytes = host_bytes big_endian 8 flint_magic.
Proof.
  destruct big_endian; do 2 eexists; (split; [reflexivity|]);
    (split; [apply lookup_insert_eq|]); by split_and!.
Qed.


(** The round trip at work: ["A"] begun and ended through a buffer of 32
    bytes, which is flushed once on the way and once at the end. *)
Lemma binary_trace_round_trip_witness :
  exists f2,
    f_data f2 =
      f_data ex_stream ++ concat (map (record_layout false) (map event_of_call ex_calls)) /\
    decode_records false (drop (length (f_data ex_stream)) (f_data f2))
      = Some (map event_of_call ex_calls).
Proof.
  eexists.
  eapply (binary_trace_round_trip false fmul0 printf_f0 ex_ctx ex_stream (Some ex_wb) ex_calls).
  - reflexivity.
  - reflexivity.
  - reflexivity.
  - unfold wb_ok, u32_mod; cbn; lia.
  - reflexivity.
  - repeat constructor; unfold u32_mod, u64_mod, double_1_0, double_2_0; lia.
  - reflexivity.
  - repeat constructor.
  - reflexivity.
  - reflexivity.
Defined.

(** The three paths of [Flint__BufferWrite] through a buffer of 4 bytes. *)
Lemma buffer_stream_is_concatenation_witness :
  exists oks ok wb2 f2,
    Forall (fun b => b = true) oks /\ ok = true /\
    f_data f2 = f_data ex_stream ++ concat ex_payloads /\ wb_head wb2 = 0.
Proof.
  do 4 eexists.
  eapply (buffer_stream_is_concatenation ex_small_wb ex_stream ex_payloads).
  - unfold wb_ok, u32_mod; cbn; lia.
  - reflexivity.
  - reflexivity.
  - constructor.
  - repeat constructor; unfold object_size; cbn; lia.
  - reflexivity.
  - reflexivity.
Defined.

(** A name of 1000 bytes, written without a buffer. *)
Lemma begin_truncates_long_name_witness :
  exists f' wb',
    FlintTraceBeginLenTidPid false fmul0 printf_f0 ev0_Z (Some ex_ctx) None
                             double_1_0 (Some ex_long_name) 1000 7 9
      = Some (true, Some (set_file ex_ctx f'), wb') /\
    f_data f' ++ held (wb_or_zero wb') =
      f_data ex_stream ++ held (wb_or_zero None) ++
      ([byte_of_Z FlintEventType_Begin] ++ host_bytes false 4 9 ++
       host_bytes false 4 7 ++ host_bytes false 8 double_1_0 ++
       [byte_of_Z 255] ++ take 255 ex_long_name) /\
    length (take 255 ex_long_name) = 255%nat /\
    decode_record false
      ([byte_of_Z FlintEventType_Begin] ++ host_bytes false 4 9 ++
       host_bytes false 4 7 ++ host_bytes false 8 double_1_0 ++
       [byte_of_Z 255] ++ take 255 ex_long_name)
    = Some (mkEvent FlintEventType_Begin 9 7 double_1_0 (take 255 ex_long_name), []).
Proof.
  apply (begin_truncates_long_name false fmul0 printf_f0 ev0_Z ex_ctx ex_stream None
           double_1_0 ex_long_name 1000 7 9).
  - reflexivity.
  - reflexivity.
  - reflexivity.
  - reflexivity.
  - reflexivity.
  - constructor.
  - unfold wb_ok, u32_mod; cbn; lia.
  - unfold u32_mod; lia.
  - unfold u32_mod; lia.
  - unfold u64_mod, double_1_0; lia.
  - lia.
  - unfold ex_long_name. rewrite length_replicate. lia.
Defined.

(** C7, as stated, fails: on an open context whose sink is in error, Begin
    with a name of 1000 bytes returns false and records nothing. *)
Lemma begin_long_name_refused_on_error :
  file ex_ctx_err = Some ex_stream_err /\ ferror ex_stream_err = true /\
  255 < 1000 /\ length ex_long_name = 1000%nat /\
  FlintTraceBeginLenTidPid false fmul0 printf_f0 ev0_Z (Some ex_ctx_err) None
                           double_1_0 (Some ex_long_name) 1000 7 9
    = Some (false, Some ex_ctx_err, None).
Proof.
  split_and!; reflexivity.
Qed.

(** [name_len = 0] on a healthy context: refused, nothing changed. *)
Lemma begin_refuses_invalid_witness :
  FlintTraceBeginLenTidPid false fmul0 printf_f0 ev0_Z (Some ex_ctx) (Some ex_wb)
                           double_1_0 (Some cstr_A) 0 7 9
    = Some (false, Some ex_ctx, Some ex_wb).
Proof.
  apply (begin_refuses_invalid false fmul0 printf_f0 ev0_Z (Some ex_ctx) (Some ex_wb)
           double_1_0 (Some cstr_A) 0 7 9).
  unfold begin_invalid. right; right; right; right. lia.
Defined.

(** C5, as stated, fails: the file of the scenario has 61 bytes, not 56;
    its header has 25, not 21, and its Begin record 19, not 18. *)
Lemma scenario_t_bin_is_61_bytes :
  exists w bytes,
    scenario_t_bin false fmul0 printf_f0 Byte.x00 ev0_Z (mkWorld ∅ []) = Some (true, true, w) /\
    fs w !! "t.bin"%string = Some bytes /\
    length bytes = 61%nat /\ length bytes <> 56%nat /\
    length (header_bytes false (mkHeader flint_magic 0 double_1_0 Byte.x00)) = 25%nat /\
    length (record_layout false (mkEvent FlintEventType_Begin 0 0 double_1_0 [Byte.x41]))
      = 19%nat.
Proof.
  do 2 eexists. split; [reflexivity|]. split; [apply lookup_insert_eq|].
  split_and!; try reflexivity. vm_compute. discriminate.
Qed.

(** ** The formatted text and the byte order at concrete values *)

Example printf_u_max : printf_u 4294967295 = lit "4294967295".
Proof. reflexivity. Qed.

Example printf_u_zero : printf_u 0 = lit "0".
Proof. reflexivity. Qed.

Example printf_prec_s_stops_at_nul :
  printf_prec_s 5 [Byte.x41; Byte.x42; Byte.x00; Byte.x43] = [Byte.x41; Byte.x42].
Proof. reflexivity. Qed.

Example magic_little_endian :
  host_bytes false 8 flint_magic
  = [Byte.x0d; Byte.xf0; Byte.xad; Byte.x0b; Byte.x00; Byte.x00; Byte.x00; Byte.x00].
Proof. reflexivity. Qed.

Example json_prologue_length : length json_prologue = 17%nat.
Proof. reflexivity. Qed.

(** ** The further properties at concrete inputs *)

(** A flush that fails on the way: the buffer of 4 bytes keeps its two. *)
Lemma BufferWrite_keeps_buffer_sound_witness :
  wb_ok (Flint__BufferWrite ex_wb_two ex_stream_failing ex_three).1.2 /\
  wb_length (Flint__BufferWrite ex_wb_two ex_stream_failing ex_three).1.2
    = wb_length ex_wb_two /\
  length (wb_data (Flint__BufferWrite ex_wb_two ex_stream_failing ex_three).1.2)
    = length (wb_data ex_wb_two).
Proof.
  apply (BufferWrite_keeps_buffer_sound ex_wb_two ex_stream_failing ex_three).
  - unfold wb_ok, u32_mod; cbn; lia.
  - unfold object_size; cbn; lia.
Defined.

(** Two more bytes fit: the stream, whose next request would fail, is not
    asked. *)
Lemma BufferWrite_fits_no_io_witness :
  exists wb',
    Flint__BufferWrite ex_wb_two ex_stream_failing [Byte.x03; Byte.x04]
      = (true, wb', ex_stream_failing) /\
    held wb' = held ex_wb_two ++ [Byte.x03; Byte.x04] /\
    wb_head wb' = wb_head ex_wb_two + 2.
Proof.
  apply (BufferWrite_fits_no_io ex_wb_two ex_stream_failing [Byte.x03; Byte.x04]).
  - unfold wb_ok, u32_mod; cbn; lia.
  - cbn; lia.
Defined.

Lemma BufferWrite_empty_payload_witness :
  Flint__BufferWrite ex_wb_two ex_stream_failing [] = (true, ex_wb_two, ex_stream_failing).
Proof.
  apply (BufferWrite_empty_payload ex_wb_two ex_stream_failing).
  unfold wb_ok, u32_mod; cbn; lia.
Defined.

(** Five bytes past a buffer of 4 that holds two. *)
Lemma BufferWrite_bypass_witness :
  exists wb' f',
    Flint__BufferWrite ex_wb_two ex_stream ex_five = (true, wb', f') /\
    f_data f' = f_data ex_stream ++ held ex_wb_two ++ ex_five /\
    wb_head wb' = 0 /\ wb_data wb' = wb_data ex_wb_two /\
    wb_length wb' = wb_length ex_wb_two.
Proof.
  apply (BufferWrite_bypass ex_wb_two ex_stream ex_five).
  - unfold wb_ok, u32_mod; cbn; lia.
  - reflexivity.
  - constructor.
  - unfold object_size; cbn; lia.
  - cbn; lia.
Defined.

(** The flush before three more bytes fails: the two bytes stay in the
    buffer, the three are lost. *)
Lemma BufferWrite_failure_loses_only_payload_witness :
  exists wb' f',
    Flint__BufferWrite ex_wb_two ex_stream_failing ex_three = (false, wb', f') /\
    f_data f' ++ held wb' = f_data ex_stream_failing ++ held ex_wb_two /\
    wb_ok wb' /\ ferror f' = true.
Proof.
  do 2 eexists. split; [reflexivity|].
  apply (BufferWrite_failure_loses_only_payload ex_wb_two ex_stream_failing ex_three).
  - unfold wb_ok, u32_mod; cbn; lia.
  - reflexivity.
  - unfold object_size; cbn; lia.
  - reflexivity.
Defined.

Lemma FlintFlush_flushes_despite_false_witness :
  exists b' f',
    FlintFlush (Some ex_ctx) (Some ex_wb_two)
      = (false, Some (set_file ex_ctx f'), Some b') /\
    f_data f' = f_data ex_stream ++ held ex_wb_two /\
    wb_head b' = 0 /\ wb_data b' = wb_data ex_wb_two /\
    wb_length b' = wb_length ex_wb_two.
Proof.
  apply (FlintFlush_flushes_despite_false ex_ctx ex_stream ex_wb_two).
  - reflexivity.
  - unfold wb_ok, u32_mod; cbn; lia.
  - reflexivity.
  - constructor.
Defined.


(** The open is refused: no file appears. *)
Lemma Flint__Init_refused_changes_nothing_witness :
  (Flint__Init false Byte.x00 (Some "t.bin"%string) double_1_0 false
               (mkWorld ∅ [None])).1 = ctx_zero /\
  fs (Flint__Init false Byte.x00 (Some "t.bin"%string) double_1_0 false
                  (mkWorld ∅ [None])).2 = fs (mkWorld ∅ [None]).
Proof.
  apply (Flint__Init_refused_changes_nothing false Byte.x00 (Some "t.bin"%string)
           double_1_0 false (mkWorld ∅ [None])).
  right. by exists [].
Defined.

(** ["A"] begun and ended through a buffer of 32 bytes, from
    [FlintInit] to [FlintQuit]. *)
Lemma binary_session_file_witness :
  exists c w1 oks ctx1 wb1 ctx2 wb2,
    FlintInit false Byte.x00 (Some "t.bin"%string) double_1_0 (mkWorld ∅ []) = (c, w1) /\
    run_calls false fmul0 printf_f0 (Some c) (Some ex_wb) ex_calls
      = Some (oks, ctx1, wb1) /\
    FlintFlush ctx1 wb1 = (false, ctx2, wb2) /\
    (FlintQuit ctx2 w1).1 = Some ctx_zero /\
    fs (FlintQuit ctx2 w1).2 !! "t.bin"%string =
      Some (header_bytes false (mkHeader flint_magic 0 double_1_0 Byte.x00) ++
            concat (map (record_layout false) (map event_of_call ex_calls))) /\
    decode_records false (concat (map (record_layout false) (map event_of_call ex_calls)))
      = Some (map event_of_call ex_calls).
Proof.
  do 5 eexists.
  assert (Hi : FlintInit false Byte.x00 (Some "t.bin"%string) double_1_0 (mkWorld ∅ [])
               = (mkContext
                    (Some (mkFILE "t.bin"
                             (header_bytes false
                                (mkHeader flint_magic 0 double_1_0 Byte.x00))
                             25 false false []))
                    double_1_0 0,
                  mkWorld (<["t.bin"%string := []]> ∅) [])) by reflexivity.
  destruct (binary_session_file false fmul0 printf_f0 Byte.x00 "t.bin" double_1_0
              (mkWorld ∅ []) _ _ _ (Some ex_wb) ex_calls
              [true; true] _ _ Hi eq_refl ltac:(constructor)
              ltac:(unfold wb_ok, u32_mod; cbn; lia) eq_refl
              ltac:(repeat constructor; unfold u32_mod, u64_mod, double_1_0, double_2_0; lia)
              eq_refl ltac:(repeat constructor))
    as (ctx2 & wb2 & H1 & H2 & H3 & H4).
  exists ctx2, wb2. split_and!; [exact Hi | reflexivity | exact H1 | exact H2 | exact H3 | exact H4].
Defined.

(** A Begin and an End in JSON mode, from [FlintInitJson] to
    [FlintQuit]. *)
Lemma json_session_file_witness :
  exists c w1 oks ctx1 wb1 body,
    FlintInitJson false Byte.x00 (Some "t.json"%string) double_1_0 (mkWorld ∅ [])
      = (c, w1) /\
    run_calls false fmul0 printf_f0 (Some c) None ex_calls = Some (oks, ctx1, wb1) /\
    concat (map (json_text_of_call fmul0 printf_f0 double_1_0) ex_calls)
      = body ++ [Byte.x2c; nl] /\
    (FlintQuit ctx1 w1).1 = Some ctx_zero /\
    fs (FlintQuit ctx1 w1).2 !! "t.json"%string
      = Some (json_prologue ++ body ++ json_epilogue) /\
    wb1 = None.
Proof.
  do 5 eexists.
  assert (Hi : FlintInitJson false Byte.x00 (Some "t.json"%string) double_1_0 (mkWorld ∅ [])
               = (mkContext (Some (mkFILE "t.json" json_prologue 17 false false []))
                            double_1_0 1,
                  mkWorld (<["t.json"%string := []]> ∅) [])) by reflexivity.
  destruct (json_session_file false fmul0 printf_f0 Byte.x00 "t.json" double_1_0
              (mkWorld ∅ []) _ _ _ None ex_calls [true; true] _ _
              Hi eq_refl ltac:(constructor) ltac:(discriminate)
              eq_refl ltac:(repeat constructor))
    as (body & H1 & H2 & H3 & H4).
  exists body. split_and!; [exact Hi | reflexivity | exact H1 | exact H2 | exact H3 | exact H4].
Defined.

(** A Begin in JSON mode with a name object of no bytes at all and a
    buffer that holds two: the call returns, the buffer is as it was. *)
Lemma json_calls_leave_buffer_witness :
  exists ok ctx',
    do_call false fmul0 printf_f0 (Some ex_ctx_json) (Some ex_wb_two)
            (CallBegin ev0_Z double_1_0 (Some []) 1000 7 9)
    = Some (ok, ctx', Some ex_wb_two).
Proof.
  apply (json_calls_leave_buffer false fmul0 printf_f0 ex_ctx_json (Some ex_wb_two)
           (CallBegin ev0_Z double_1_0 (Some []) 1000 7 9)).
  cbn. lia.
Defined.

(** An End in JSON mode, handed a buffer that holds two bytes. *)
Lemma json_end_appends_object_witness :
  exists ctx' wb' f',
    FlintTraceEndTidPid false fmul0 printf_f0 (Some ex_ctx_json) (Some ex_wb_two)
                        double_2_0 7 9 = (true, ctx', wb') /\
    ctx' = Some (set_file ex_ctx_json f') /\ wb' = Some ex_wb_two /\
    f_data f' =
      f_data ex_stream ++
      lit "{" ++ [dq] ++ lit "ph" ++ [dq] ++ lit ":" ++ [dq] ++ lit "E" ++ [dq] ++
      lit "," ++ [dq] ++ lit "pid" ++ [dq] ++ lit ":" ++ printf_u 9 ++
      lit "," ++ [dq] ++ lit "tid" ++ [dq] ++ lit ":" ++ printf_u 7 ++
      lit "," ++ [dq] ++ lit "ts" ++ [dq] ++ lit ":" ++
      printf_f0 (fmul0 double_2_0 (timestamp_unit ex_ctx_json)) ++
      lit "}," ++ [nl].
Proof.
  do 2 eexists.
  assert (H : FlintTraceEndTidPid false fmul0 printf_f0 (Some ex_ctx_json)
                (Some ex_wb_two) double_2_0 7 9
              = (true,
                 Some (set_file ex_ctx_json
                         (stream_put ex_stream
                            (json_end_text printf_f0 9 7 (fmul0 double_2_0 double_1_0)))),
                 Some ex_wb_two)) by reflexivity.
  destruct (json_end_appends_object false fmul0 printf_f0 ex_ctx_json ex_stream
              (Some ex_wb_two) double_2_0 7 9 _ _ eq_refl ltac:(cbn; lia) eq_refl H)
    as (f' & H1 & H2 & H3).
  exists f'. split_and!; [exact H | exact H1 | exact H2 | exact H3].
Defined.

(** End on a sink in error. *)
Lemma end_refuses_invalid_witness :
  FlintTraceEndTidPid false fmul0 printf_f0 (Some ex_ctx_err) (Some ex_wb_two)
                      double_2_0 7 9
  = (false, Some ex_ctx_err, Some ex_wb_two).
Proof.
  apply (end_refuses_invalid false fmul0 printf_f0 (Some ex_ctx_err) (Some ex_wb_two)
           double_2_0 7 9).
  right; right. exists ex_ctx_err, ex_stream_err. split_and!; auto.
Defined.


Lemma unbuffered_call_reaches_sink_witness :
  exists ctx' wb' c' f',
    do_call false fmul0 printf_f0 (Some ex_ctx) None (CallEnd double_2_0 7 9)
      = Some (true, ctx', wb') /\
    ctx' = Some c' /\ file c' = Some f' /\ wb' = None /\
    f_data f' = f_data ex_stream ++
                record_layout false (event_of_call (CallEnd double_2_0 7 9)).
Proof.
  do 2 eexists.
  assert (H : do_call false fmul0 printf_f0 (Some ex_ctx) None (CallEnd double_2_0 7 9)
              = Some (true,
                      Some (set_file ex_ctx
                              (stream_put ex_stream
                                 (end_bytes false (mkEnd FlintEventType_End 9 7 double_2_0)))),
                      None)) by reflexivity.
  destruct (unbuffered_call_reaches_sink false fmul0 printf_f0 ex_ctx ex_stream
              (CallEnd double_2_0 7 9) _ _ eq_refl eq_refl eq_refl H)
    as (c' & f' & H1 & H2 & H3 & H4).
  exists c', f'. split_and!; [exact H | exact H1 | exact H2 | exact H3 | exact H4].
Defined.


(** The string ["AB"] with C and D behind its terminator: the record names
    A and B only. *)
Lemma begin_cstring_records_prefix_witness :
  exists ctx' wb' c' f',
    FlintTraceBeginTidPid false fmul0 printf_f0 ev0_Z (Some ex_ctx) None double_1_0
      (Some (ex_cstring_head ++ Byte.x00 :: ex_cstring_tail)) 7 9
      = Some (true, ctx', wb') /\
    ctx' = Some c' /\ file c' = Some f' /\
    f_data f' ++ held (wb_or_zero wb') =
      f_data ex_stream ++ held (wb_or_zero None) ++
      record_layout false
        (mkEvent FlintEventType_Begin 9 7 double_1_0 (take 255 ex_cstring_head)).
Proof.
  do 2 eexists.
  assert (H : FlintTraceBeginTidPid false fmul0 printf_f0 ev0_Z (Some ex_ctx) None
                double_1_0 (Some (ex_cstring_head ++ Byte.x00 :: ex_cstring_tail)) 7 9
              = Some (true,
                      Some (set_file ex_ctx
                              (stream_put ex_stream
                                 (record_layout false
                                    (mkEvent FlintEventType_Begin 9 7 double_1_0
                                             ex_cstring_head)))),
                      None)) by reflexivity.
  destruct (begin_cstring_records_prefix false fmul0 printf_f0 ev0_Z ex_ctx ex_stream
              None double_1_0 ex_cstring_head ex_cstring_tail 7 9 _ _
              ltac:(repeat constructor; discriminate)
              ltac:(unfold object_size; cbn; lia)
              eq_refl eq_refl eq_refl wb_zero_ok H) as (c' & f' & H1 & H2 & H3).
  exists c', f'. split_and!; [exact H | exact H1 | exact H2 | exact H3].
Defined.

(** The empty string, on no context at all. *)
Lemma begin_cstring_refuses_empty_witness :
  FlintTraceBeginTidPid false fmul0 printf_f0 ev0_Z None (Some ex_wb_two) double_1_0
                        (Some [Byte.x00]) 7 9
  = Some (false, None, Some ex_wb_two).
Proof.
  apply (begin_cstring_refuses_empty false fmul0 printf_f0 ev0_Z None (Some ex_wb_two)
           double_1_0 (Some [Byte.x00]) 7 9).
  right. by exists [].
Defined.
